(** * Social media post generator

    A shallow embedding of [social_media_post_generator.py] and the
    properties of its prompt construction, error handling, control flow
    and presentation.

    Python [str] values are modelled as [string], holding the UTF-8
    encoding of the text; f-strings are written out as concatenations,
    one source line per line. *)

From Stdlib Require Import String Ascii List Bool Arith ZArith Lia.
From Stdlib Require Import DecimalString DecimalZ.
Import ListNotations.
Open Scope string_scope.

(* ===================================================================== *)
(** ** Python strings *)
(* ===================================================================== *)

Module PyStr.

(** The line feed and the double quote, which the literals below cannot
    hold themselves. *)
Definition nl : string := String "010"%char EmptyString.
Definition dq : string := String "034"%char EmptyString.

(** [needle in hay]. *)
Fixpoint contains (needle hay : string) : bool :=
  prefix needle hay ||
  match hay with
  | EmptyString => false
  | String _ hay' => contains needle hay'
  end.

(** Truth value of a [str]: false exactly for the empty string. *)
Definition truthy (s : string) : bool :=
  match s with
  | EmptyString => false
  | String _ _ => true
  end.

(** *** [str.strip()]

    Without argument [strip] removes leading and trailing whitespace, the
    characters U+0009..U+000D, U+001C..U+0020, U+0085, U+00A0, U+1680,
    U+2000..U+200A, U+2028, U+2029, U+202F, U+205F and U+3000.  On the
    UTF-8 encoding these are one, two or three bytes long. *)

Definition between (lo hi : nat) (c : ascii) : bool :=
  ((lo <=? nat_of_ascii c) && (nat_of_ascii c <=? hi))%nat.

Definition byte_is (n : nat) (c : ascii) : bool :=
  (nat_of_ascii c =? n)%nat.

Definition space1 (c : ascii) : bool :=
  between 9 13 c || between 28 32 c.

(** U+0085 is C2 85, U+00A0 is C2 A0. *)
Definition space2 (c1 c2 : ascii) : bool :=
  byte_is 194 c1 && (byte_is 133 c2 || byte_is 160 c2).

(** U+1680 is E1 9A 80; U+2000..U+200A are E2 80 80..8A; U+2028, U+2029
    and U+202F are E2 80 A8, A9 and AF; U+205F is E2 81 9F; U+3000 is
    E3 80 80. *)
Definition space3 (c1 c2 c3 : ascii) : bool :=
  (byte_is 225 c1 && byte_is 154 c2 && byte_is 128 c3) ||
  (byte_is 226 c1 && byte_is 128 c2 &&
     (between 128 138 c3 || byte_is 168 c3 || byte_is 169 c3 || byte_is 175 c3)) ||
  (byte_is 226 c1 && byte_is 129 c2 && byte_is 159 c3) ||
  (byte_is 227 c1 && byte_is 128 c2 && byte_is 128 c3).

(** Drop the whitespace at the front; [fwd] tells whether the bytes come
    in reading order or, for the right end, reversed. *)
Fixpoint drop_space (fwd : bool) (s : list ascii) : list ascii :=
  match s with
  | c1 :: t1 =>
      if space1 c1 then drop_space fwd t1 else
      match t1 with
      | c2 :: t2 =>
          if (if fwd then space2 c1 c2 else space2 c2 c1)
          then drop_space fwd t2 else
          match t2 with
          | c3 :: t3 =>
              if (if fwd then space3 c1 c2 c3 else space3 c3 c2 c1)
              then drop_space fwd t3 else s
          | [] => s
          end
      | [] => s
      end
  | [] => s
  end.

Definition lstrip (s : string) : string :=
  string_of_list_ascii (drop_space true (list_ascii_of_string s)).

Definition rstrip (s : string) : string :=
  string_of_list_ascii
    (rev (drop_space false (rev (list_ascii_of_string s)))).

Definition strip (s : string) : string := rstrip (lstrip s).

End PyStr.
Import PyStr.

(* ===================================================================== *)
(** ** The prompt *)
(* ===================================================================== *)

(** The prompt f-string of [generate_post_with_gemini]. *)
Definition gemini_prompt
    (platform event_name date description venue : string) : string :=
  "Generate a " ++ platform ++ " post for an event with the following details:" ++ nl ++
  "    Event Name: " ++ event_name ++ nl ++
  "    Date: " ++ date ++ nl ++
  "    Venue: " ++ venue ++ nl ++
  "    Description: " ++ description ++ nl ++
  "    " ++ nl ++
  "    For " ++ platform ++ ", consider these specific requirements:" ++ nl ++
  "    - LinkedIn: Professional tone, include relevant hashtags, structured format" ++ nl ++
  "    - Twitter: Concise (under 280 characters), engaging, include hashtags" ++ nl ++
  "    - WhatsApp: Casual tone, use emojis, clear formatting with event details" ++ nl ++
  "    " ++ nl ++
  "    Generate only the post content without any explanations.".

(** The prompt f-string of [generate_post_with_chatgpt]. *)
Definition chatgpt_prompt
    (platform event_name date description venue : string) : string :=
  "Generate a " ++ platform ++ " post for an event with the following details:" ++ nl ++
  "    Event Name: " ++ event_name ++ nl ++
  "    Date: " ++ date ++ nl ++
  "    Venue: " ++ venue ++ nl ++
  "    Description: " ++ description ++ nl ++
  "    " ++ nl ++
  "    For " ++ platform ++ ", consider these specific requirements:" ++ nl ++
  "    - LinkedIn: Professional tone, include relevant hashtags, structured format" ++ nl ++
  "    - Twitter: Concise (under 280 characters), engaging, include hashtags" ++ nl ++
  "    - WhatsApp: Casual tone, use emojis, clear formatting with event details" ++ nl ++
  "    " ++ nl ++
  "    Generate only the post content without any explanations.".

(* ===================================================================== *)
(** ** The copy button *)
(* ===================================================================== *)

(** [create_copy_button]: the markup f-string, where a doubled brace of
    the source stands for one brace. *)
Definition create_copy_button (text button_id : string) : string :=
  nl ++
  "        <div style=" ++ dq ++ "position: relative; margin-bottom: 15px;" ++ dq ++ ">" ++ nl ++
  "            <button " ++ nl ++
  "                onclick=" ++ dq ++ "copyText_" ++ button_id ++ "()" ++ dq ++ nl ++
  "                style=" ++ dq ++ nl ++
  "                    background-color: white;" ++ nl ++
  "                    border: 1px solid #ccc;" ++ nl ++
  "                    padding: 8px 15px;" ++ nl ++
  "                    border-radius: 5px;" ++ nl ++
  "                    cursor: pointer;" ++ nl ++
  "                    display: flex;" ++ nl ++
  "                    align-items: center;" ++ nl ++
  "                    gap: 5px;" ++ nl ++
  "                    font-size: 14px;" ++ nl ++
  "                " ++ dq ++ nl ++
  "            >" ++ nl ++
  "                <span style=" ++ dq ++ "font-size: 16px;" ++ dq ++ ">📋</span>" ++ nl ++
  "                <span>Copy</span>" ++ nl ++
  "            </button>" ++ nl ++
  "            <textarea id=" ++ dq ++ "textToCopy_" ++ button_id ++ dq ++ " style=" ++ dq ++ "position: absolute; top: -9999px;" ++ dq ++ ">" ++ text ++ "</textarea>" ++ nl ++
  "            <script>" ++ nl ++
  "                function copyText_" ++ button_id ++ "() {" ++ nl ++
  "                    var copyText = document.getElementById(" ++ dq ++ "textToCopy_" ++ button_id ++ dq ++ ");" ++ nl ++
  "                    copyText.select();" ++ nl ++
  "                    document.execCommand(" ++ dq ++ "copy" ++ dq ++ ");" ++ nl ++
  "                    var button = event.target;" ++ nl ++
  "                    if (button.tagName === 'SPAN') button = button.parentElement;" ++ nl ++
  "                    var originalText = button.innerHTML;" ++ nl ++
  "                    button.innerHTML = '<span>✓ Copied!</span>';" ++ nl ++
  "                    setTimeout(function() {" ++ nl ++
  "                        button.innerHTML = originalText;" ++ nl ++
  "                    }, 2000);" ++ nl ++
  "                }" ++ nl ++
  "            </script>" ++ nl ++
  "        </div>" ++ nl ++
  "    ".

(** *** What the button's script copies

    [copyText_<id>] selects the element [textToCopy_<id>] and copies the
    selection, which is the value of that [textarea].  A document reader
    takes as the value of a [textarea] the characters after its start
    tag up to the first end tag [</textarea>]; markup after that end tag
    belongs to the surrounding element.  What a reader does beyond that
    (decoding character references, taking end tags in upper case,
    dropping a first line feed, replacing carriage returns and NUL) is
    not part of this reading, which is used on texts without those. *)

(** [s] without its beginning [p], when it begins with [p]. *)
Fixpoint skip_prefix (p s : string) : option string :=
  match p, s with
  | EmptyString, _ => Some s
  | String a p', String b s' =>
      if Ascii.eqb a b then skip_prefix p' s' else None
  | String _ _, EmptyString => None
  end.

(** The part of [s] after the first occurrence of [marker]. *)
Fixpoint after_first (marker s : string) : option string :=
  match skip_prefix marker s with
  | Some rest => Some rest
  | None =>
      match s with
      | EmptyString => None
      | String _ s' => after_first marker s'
      end
  end.

(** The part of [s] before the first occurrence of [marker]. *)
Fixpoint before_first (marker s : string) : option string :=
  if prefix marker s then Some EmptyString
  else match s with
       | EmptyString => None
       | String c s' => option_map (String c) (before_first marker s')
       end.

Definition textarea_start_tag (button_id : string) : string :=
  "<textarea id=" ++ dq ++ "textToCopy_" ++ button_id ++ dq ++
  " style=" ++ dq ++ "position: absolute; top: -9999px;" ++ dq ++ ">".

(** [document.getElementById("textToCopy_<id>").value] in the document
    made of [markup]. *)
Definition textarea_value (markup button_id : string) : option string :=
  match after_first (textarea_start_tag button_id) markup with
  | Some rest => before_first "</textarea>" rest
  | None => None
  end.

(** The text on the clipboard once the button bound to [text] was
    activated. *)
Definition copied_text (text button_id : string) : option string :=
  textarea_value (create_copy_button text button_id) button_id.

(* ===================================================================== *)
(** ** Dates *)
(* ===================================================================== *)

Module Dates.

(** A [datetime.date]. *)
Record date : Type := mkdate { year : Z; month : Z; day : Z }.

Definition is_leap (y : Z) : bool :=
  ((y mod 4 =? 0) && negb (y mod 100 =? 0) || (y mod 400 =? 0))%Z.

Definition days_in_month (y m : Z) : Z :=
  match m with
  | 1 | 3 | 5 | 7 | 8 | 10 | 12 => 31
  | 4 | 6 | 9 | 11 => 30
  | 2 => if is_leap y then 29 else 28
  | _ => 0
  end%Z.

(** The dates a [datetime.date] can hold: years 1 to 9999 of the
    Gregorian calendar. *)
Definition valid_date (d : date) : bool :=
  ((1 <=? year d) && (year d <=? 9999) &&
   (1 <=? month d) && (month d <=? 12) &&
   (1 <=? day d) && (day d <=? days_in_month (year d) (month d)))%Z.

(** [d1 <= d2]. *)
Definition date_le (d1 d2 : date) : bool :=
  ((year d1 <? year d2) ||
   ((year d1 =? year d2) &&
    ((month d1 <? month d2) ||
     ((month d1 =? month d2) && (day d1 <=? day d2)))))%Z.

(** A date object is always true. *)
Definition date_truthy (_ : date) : bool := true.

(** The month names of the C locale, which is the [LC_TIME] locale of a
    Python process that never calls [locale.setlocale]; this program
    does not. *)
Definition month_names : list string :=
  [ "January"; "February"; "March"; "April"; "May"; "June"; "July";
    "August"; "September"; "October"; "November"; "December" ].

Definition month_name (m : Z) : string :=
  nth (Z.to_nat (m - 1)) month_names EmptyString.

(** [str(n)] of an integer. *)
Definition decimal (n : Z) : string :=
  NilZero.string_of_int (Z.to_int n).

(** [%d]: the day of the month as two digits. *)
Definition two_digits (n : Z) : string :=
  if (n <? 10)%Z then "0" ++ decimal n else decimal n.

(** One conversion of [strftime].  [%B], [%d], [%Y] and [%%] are the
    ones interpreted; the year is written in decimal, which has four
    digits from the year 1000 on (below that C libraries differ in the
    padding). *)
Definition directive (c : ascii) (d : date) : string :=
  match c with
  | "B"%char => month_name (month d)
  | "d"%char => two_digits (day d)
  | "Y"%char => decimal (year d)
  | "%"%char => "%"
  | _ => String "%"%char (String c EmptyString)
  end.

(** [d.strftime(fmt)] in a process whose [LC_TIME] is the C locale. *)
Fixpoint strftime (fmt : string) (d : date) : string :=
  match fmt with
  | String "%"%char (String c rest) => directive c d ++ strftime rest d
  | String c rest => String c (strftime rest d)
  | EmptyString => EmptyString
  end.

(** The part of the [LC_TIME] locale of the process that [%B] reads: the
    full names of the twelve months. *)
Record locale : Type := { mon : list string }.

Definition c_locale : locale := {| mon := month_names |}.


(** One conversion of [strftime] under a locale: [%B] is the month's
    full name in that locale, the other conversions do not depend on
    it. *)
Definition directive_l (lc : locale) (c : ascii) (d : date) : string :=
  match c with
  | "B"%char => nth (Z.to_nat (month d - 1)) (mon lc) EmptyString
  | "d"%char => two_digits (day d)
  | "Y"%char => decimal (year d)
  | "%"%char => "%"
  | _ => String "%"%char (String c EmptyString)
  end.

(** [d.strftime(fmt)] in a process whose [LC_TIME] locale is [lc]. *)
Fixpoint strftime_l (lc : locale) (fmt : string) (d : date) : string :=
  match fmt with
  | String "%"%char (String c rest) =>
      directive_l lc c d ++ strftime_l lc rest d
  | String c rest => String c (strftime_l lc rest d)
  | EmptyString => EmptyString
  end.

End Dates.
Import Dates.

(* ===================================================================== *)
(** ** Exceptions, the outside world and the page *)
(* ===================================================================== *)

(** An instance of [Exception], known by its [str(e)]. *)
Record Exception : Type := mkException { str : string }.

Inductive result (A : Type) : Type :=
| Ok (a : A)
| Raise (e : Exception).
Arguments Ok {A} a.
Arguments Raise {A} e.

(** The response of [model.generate_content]; reading [response.text]
    raises when the response holds no text. *)
Record GenerateContentResponse : Type :=
  { text : result string }.

(** The request and the response of [client.chat.completions.create]. *)
Record ChatMessage : Type :=
  { role : string; content : string }.

Record Choice : Type :=
  { message_content : option string }.

Record ChatCompletion : Type :=
  { choices : list Choice }.

(** The two provider libraries.  [W] is the state of the world outside
    the program (accounts, quotas, the network); every call may change
    it and may raise. *)
Record Services (W Model Client : Type) : Type :=
  { genai_configure : string -> W -> result unit * W;
    genai_GenerativeModel : string -> W -> result Model * W;
    openai_OpenAI : string -> W -> result Client * W;
    generate_content :
      Model -> string -> W -> result GenerateContentResponse * W;
    chat_completions_create :
      Client -> string -> list ChatMessage -> W -> result ChatCompletion * W }.
Arguments genai_configure {W Model Client}.
Arguments genai_GenerativeModel {W Model Client}.
Arguments openai_OpenAI {W Model Client}.
Arguments generate_content {W Model Client}.
Arguments chat_completions_create {W Model Client}.

(** What the user has entered in the widgets in this run of the script,
    each widget known by its label, the clock, and the [LC_TIME] locale
    of the process, which the program neither sets nor reads itself. *)
Record Inputs : Type :=
  { sidebar_radio : string -> list string -> string;
    sidebar_text_input : string -> string;
    text_input : string -> string;
    date_input : string -> date -> date;  (* label, min_value *)
    text_area : string -> string;
    button : string -> bool;
    datetime_today : date;
    lc_time : locale }.

(** What a run does, in order: the elements put on the page and the
    calls into the provider libraries. *)
Inductive event : Type :=
| St_set_page_config (page_title layout : string)
| St_markdown (body : string) (unsafe_allow_html : bool)
| St_title (body : string)
| St_sidebar_title (body : string)
| St_sidebar_radio (label : string) (options : list string)
| St_sidebar_text_input (label type : string)
| St_text_input (label placeholder : string)
| St_date_input (label : string) (min_value : date)
| St_text_area (label placeholder : string) (height : Z)
| St_button (label type : string) (use_container_width : bool)
| St_sidebar_markdown (body : string)
| St_sidebar_warning (body : string)
| St_info (body : string)
| St_error (body : string)
| St_spinner (body : string)
| St_subheader (body : string)
| Html (markup : string)
| Call_genai_configure (api_key : string)
| Call_GenerativeModel (model_name : string)
| Call_OpenAI (api_key : string)
| Call_generate_content (prompt : string)
| Call_chat_completions_create (model : string) (messages : list ChatMessage).

(** A call into a provider library. *)
Definition is_provider_call (e : event) : bool :=
  match e with
  | Call_genai_configure _ | Call_GenerativeModel _ | Call_OpenAI _
  | Call_generate_content _ | Call_chat_completions_create _ _ => true
  | _ => false
  end.

(** The prompt of a remote text-generation request. *)
Definition generation_request (e : event) : option string :=
  match e with
  | Call_generate_content prompt => Some prompt
  | Call_chat_completions_create _ messages =>
      Some (String.concat EmptyString (map content messages))
  | _ => None
  end.

Fixpoint generation_requests (log : list event) : list string :=
  match log with
  | [] => []
  | e :: log' =>
      match generation_request e with
      | Some p => p :: generation_requests log'
      | None => generation_requests log'
      end
  end.

Definition provider_calls (log : list event) : list event :=
  filter is_provider_call log.

(** The constant texts of the page. *)
Definition custom_css : string :=
  nl ++
  "        <style>" ++ nl ++
  "        .stTextInput > div > div > input {" ++ nl ++
  "            background-color: #f0f2f6;" ++ nl ++
  "        }" ++ nl ++
  "        .stTextArea > div > div > textarea {" ++ nl ++
  "            background-color: #f0f2f6;" ++ nl ++
  "        }" ++ nl ++
  "        .output-container {" ++ nl ++
  "            background-color: #f8f9fa;" ++ nl ++
  "            padding: 20px;" ++ nl ++
  "            border-radius: 10px;" ++ nl ++
  "            border: 1px solid #dee2e6;" ++ nl ++
  "            margin-top: 5px;" ++ nl ++
  "        }" ++ nl ++
  "        .generate-button {" ++ nl ++
  "            background-color: #4CAF50;" ++ nl ++
  "            color: white;" ++ nl ++
  "            padding: 10px 20px;" ++ nl ++
  "            border-radius: 5px;" ++ nl ++
  "            border: none;" ++ nl ++
  "            cursor: pointer;" ++ nl ++
  "            width: 100%;" ++ nl ++
  "        }" ++ nl ++
  "        </style>" ++ nl ++
  "    ".

Definition example_input : string :=
  nl ++
  "                **Event Name:** Tech Conference 2025" ++ nl ++
  "                " ++ nl ++
  "                **Date:** January 15, 2025" ++ nl ++
  "                " ++ nl ++
  "                **Venue:** Virtual Event" ++ nl ++
  "                " ++ nl ++
  "                **Description:** Join us for an exciting day of technology insights, networking, and learning from industry experts. Featured topics include AI, Cloud Computing, and Digital Transformation." ++ nl ++
  "                ".

Definition output_container_open : string :=
  "<div class=" ++ dq ++ "output-container" ++ dq ++ ">".

(* ===================================================================== *)
(** ** The program *)
(* ===================================================================== *)

Section Program.

Context {W Model Client : Type}.
Variable svc : Services W Model Client.

(** The value of the variable [model] of [main]: what [setup_gemini] or
    [setup_chatgpt] returned. *)
Inductive handle : Type :=
| GenerativeModel (m : Model)
| OpenAI (c : Client).

(** A computation starts in a state of the outside world; it returns a
    value or raises, and leaves the new state of the world and the
    events it caused, in order.  What was done before an exception
    stays done. *)
Definition M (A : Type) : Type := W -> result A * W * list event.

Definition ret {A} (a : A) : M A := fun w => (Ok a, w, []).

Definition bind {A B} (c : M A) (k : A -> M B) : M B :=
  fun w =>
    match c w with
    | (Ok a, w1, l1) =>
        match k a w1 with
        | (r, w2, l2) => (r, w2, (l1 ++ l2)%list)
        end
    | (Raise e, w1, l1) => (Raise e, w1, l1)
    end.

Definition raise {A} (e : Exception) : M A := fun w => (Raise e, w, []).

(** [try: body  except Exception as e: handler]. *)
Definition try_except {A} (body : M A) (handler : Exception -> M A) : M A :=
  fun w =>
    match body w with
    | (Ok a, w1, l1) => (Ok a, w1, l1)
    | (Raise e, w1, l1) =>
        match handler e w1 with
        | (r, w2, l2) => (r, w2, (l1 ++ l2)%list)
        end
    end.

Definition lift {A} (r : result A) : M A := fun w => (r, w, []).

Definition emit (ev : event) : M unit := fun w => (Ok tt, w, [ev]).

Definition call {A} (ev : event) (f : W -> result A * W) : M A :=
  fun w => match f w with (r, w1) => (r, w1, [ev]) end.

Notation "x <- c1 ;; c2" := (bind c1 (fun x => c2))
  (at level 61, c1 at next level, right associativity).
Notation "c1 ;; c2" := (bind c1 (fun _ => c2))
  (at level 61, right associativity).

Definition AttributeError (obj attr : string) : Exception :=
  mkException ("'" ++ obj ++ "' object has no attribute '" ++ attr ++ "'").

Definition IndexError : Exception :=
  mkException "list index out of range".

(** [model.generate_content(prompt)]. *)
Definition model_generate_content (model : handle) (prompt : string)
  : M GenerateContentResponse :=
  match model with
  | GenerativeModel m =>
      call (Call_generate_content prompt) (generate_content svc m prompt)
  | OpenAI _ => raise (AttributeError "OpenAI" "generate_content")
  end.

(** [client.chat.completions.create(model=..., messages=...)]. *)
Definition client_chat_completions_create
    (client : handle) (model : string) (messages : list ChatMessage)
  : M ChatCompletion :=
  match client with
  | OpenAI c =>
      call (Call_chat_completions_create model messages)
           (chat_completions_create svc c model messages)
  | GenerativeModel _ => raise (AttributeError "GenerativeModel" "chat")
  end.

(** [l[0]]. *)
Definition first_item {A} (l : list A) : result A :=
  match l with
  | x :: _ => Ok x
  | [] => Raise IndexError
  end.

(** [content.strip()], where [content] may be [None]. *)
Definition content_strip (content : option string) : result string :=
  match content with
  | Some s => Ok (strip s)
  | None => Raise (AttributeError "NoneType" "strip")
  end.

Definition setup_gemini (api_key : string) : M handle :=
  call (Call_genai_configure api_key) (genai_configure svc api_key) ;;
  m <- call (Call_GenerativeModel "gemini-pro")
            (genai_GenerativeModel svc "gemini-pro") ;;
  ret (GenerativeModel m).

Definition setup_chatgpt (api_key : string) : M handle :=
  client <- call (Call_OpenAI api_key) (openai_OpenAI svc api_key) ;;
  ret (OpenAI client).

Definition generate_post_with_gemini
    (model : handle) (platform event_name date description venue : string)
  : M string :=
  let prompt := gemini_prompt platform event_name date description venue in
  try_except
    (response <- model_generate_content model prompt ;;
     t <- lift (text response) ;;
     ret (strip t))
    (fun e => ret ("Error generating post: " ++ str e)).

Definition generate_post_with_chatgpt
    (client : handle) (platform event_name date description venue : string)
  : M string :=
  let prompt := chatgpt_prompt platform event_name date description venue in
  try_except
    (response <- client_chat_completions_create client "gpt-3.5-turbo"
                   [ {| role := "user"; content := prompt |} ] ;;
     choice <- lift (first_item (choices response)) ;;
     lift (content_strip (message_content choice)))
    (fun e => ret ("Error generating post: " ++ str e)).

(** [main].  A widget is put on the page and gives the value the user
    entered, taken from [ui].  The layout containers (columns, the
    spinner's block) only place the elements and are not recorded, apart
    from the spinner's text.  A [return] in the middle of the source is
    the end of the corresponding branch here. *)
Definition main (ui : Inputs) : M unit :=
  emit (St_set_page_config "Social Media Post Generator" "wide") ;;
  emit (St_markdown custom_css true) ;;
  emit (St_title "📱 Social Media Post Generator (AI-Powered)") ;;
  emit (St_markdown "Generate AI-powered platform-specific posts for your events" false) ;;
  emit (St_markdown "---" false) ;;
  emit (St_sidebar_title "API Configuration") ;;
  emit (St_sidebar_radio "Select AI Service" ["Gemini"; "ChatGPT"]) ;;
  let api_choice := sidebar_radio ui "Select AI Service" ["Gemini"; "ChatGPT"] in
  api_key <-
    (if api_choice =? "Gemini" then
       emit (St_sidebar_text_input "Enter Gemini API Key" "password") ;;
       emit (St_sidebar_markdown "[Get Gemini API Key](https://makersuite.google.com/app/apikey)") ;;
       ret (sidebar_text_input ui "Enter Gemini API Key")
     else
       emit (St_sidebar_text_input "Enter OpenAI API Key" "password") ;;
       emit (St_sidebar_markdown "[Get OpenAI API Key](https://platform.openai.com/api-keys)") ;;
       ret (sidebar_text_input ui "Enter OpenAI API Key")) ;;
  if negb (truthy api_key) then
    emit (St_sidebar_warning ("Please enter your " ++ api_choice ++ " API key to continue")) ;;
    emit (St_info ("👈 Enter your " ++ api_choice ++ " API key in the sidebar to get started")) ;;
    ret tt
  else
  model <-
    try_except
      (model <- (if api_choice =? "Gemini" then setup_gemini api_key
                 else setup_chatgpt api_key) ;;
       ret (Some model))
      (fun e =>
         emit (St_error ("Error initializing " ++ api_choice ++ ": " ++ str e)) ;;
         ret None) ;;
  match model with
  | None => ret tt
  | Some model =>
  emit (St_text_input "Event Name" "Enter event name") ;;
  let event_name := text_input ui "Event Name" in
  emit (St_date_input "Event Date" (datetime_today ui)) ;;
  let date := date_input ui "Event Date" (datetime_today ui) in
  emit (St_text_input "Venue" "Enter event venue") ;;
  let venue := text_input ui "Venue" in
  emit (St_text_area "Event Description"
          "Enter a detailed description of your event" 150) ;;
  let description := text_area ui "Event Description" in
  emit (St_button "Generate Posts" "primary" true) ;;
  let generate := button ui "Generate Posts" in
  if forallb (fun b : bool => b)
       [truthy event_name; date_truthy date; truthy venue; truthy description]
     && generate
  then
    let formatted_date := strftime_l (lc_time ui) "%B %d, %Y" date in
    emit (St_spinner ("Generating posts using " ++ api_choice ++ " AI...")) ;;
    emit (St_subheader "LinkedIn Post") ;;
    linkedin_post <-
      (if api_choice =? "Gemini" then
         generate_post_with_gemini model "LinkedIn"
           event_name formatted_date description venue
       else
         generate_post_with_chatgpt model "LinkedIn"
           event_name formatted_date description venue) ;;
    emit (Html (create_copy_button linkedin_post "linkedin")) ;;
    emit (St_markdown output_container_open true) ;;
    emit (St_markdown linkedin_post false) ;;
    emit (St_markdown "</div>" true) ;;
    emit (St_subheader "Twitter Post") ;;
    twitter_post <-
      (if api_choice =? "Gemini" then
         generate_post_with_gemini model "Twitter"
           event_name formatted_date description venue
       else
         generate_post_with_chatgpt model "Twitter"
           event_name formatted_date description venue) ;;
    emit (Html (create_copy_button twitter_post "twitter")) ;;
    emit (St_markdown output_container_open true) ;;
    emit (St_markdown twitter_post false) ;;
    emit (St_markdown "</div>" true) ;;
    emit (St_subheader "WhatsApp Post") ;;
    whatsapp_post <-
      (if api_choice =? "Gemini" then
         generate_post_with_gemini model "WhatsApp"
           event_name formatted_date description venue
       else
         generate_post_with_chatgpt model "WhatsApp"
           event_name formatted_date description venue) ;;
    emit (Html (create_copy_button whatsapp_post "whatsapp")) ;;
    emit (St_markdown output_container_open true) ;;
    emit (St_markdown whatsapp_post false) ;;
    emit (St_markdown "</div>" true) ;;
    ret tt
  else
    (if negb generate then
       emit (St_info "👈 Fill in all the event details and click 'Generate Posts'")
     else ret tt) ;;
    emit (St_markdown "### Example Input" false) ;;
    emit (St_markdown example_input false) ;;
    ret tt
  end.

End Program.

(* ===================================================================== *)
(** ** Names for the parts of a run *)
(* ===================================================================== *)

Section Run.

Context {W Model Client : Type}.
Variable svc : Services W Model Client.
Variable ui : Inputs.

(** The values [main] reads from the widgets. *)
Definition ui_api_choice : string :=
  sidebar_radio ui "Select AI Service" ["Gemini"; "ChatGPT"].

Definition ui_api_key : string :=
  if ui_api_choice =? "Gemini"
  then sidebar_text_input ui "Enter Gemini API Key"
  else sidebar_text_input ui "Enter OpenAI API Key".

Definition ui_event_name : string := text_input ui "Event Name".
Definition ui_date : date := date_input ui "Event Date" (datetime_today ui).
Definition ui_venue : string := text_input ui "Venue".
Definition ui_description : string := text_area ui "Event Description".
Definition ui_generate : bool := button ui "Generate Posts".

(** The test of the [if] that guards the generation in [main]. *)
Definition fields_and_button : bool :=
  forallb (fun b : bool => b)
    [truthy ui_event_name; date_truthy ui_date; truthy ui_venue;
     truthy ui_description]
  && ui_generate.

(** The provider setup [main] runs for the chosen service. *)
Definition setup : @M W (@handle Model Client) :=
  if ui_api_choice =? "Gemini" then setup_gemini svc ui_api_key
  else setup_chatgpt svc ui_api_key.

(** The generation [main] runs for one platform. *)
Definition generate_post (model : @handle Model Client) (platform : string)
  : @M W string :=
  if ui_api_choice =? "Gemini" then
    generate_post_with_gemini svc model platform
      ui_event_name (strftime_l (lc_time ui) "%B %d, %Y" ui_date)
      ui_description ui_venue
  else
    generate_post_with_chatgpt svc model platform
      ui_event_name (strftime_l (lc_time ui) "%B %d, %Y" ui_date)
      ui_description ui_venue.

(** The prompt [main] builds for one platform. *)
Definition ui_prompt (platform : string) : string :=
  gemini_prompt platform
    ui_event_name (strftime_l (lc_time ui) "%B %d, %Y" ui_date)
    ui_description ui_venue.

(** The events of the parts of the page. *)
Definition page_top : list event :=
  [ St_set_page_config "Social Media Post Generator" "wide";
    St_markdown custom_css true;
    St_title "📱 Social Media Post Generator (AI-Powered)";
    St_markdown "Generate AI-powered platform-specific posts for your events" false;
    St_markdown "---" false;
    St_sidebar_title "API Configuration";
    St_sidebar_radio "Select AI Service" ["Gemini"; "ChatGPT"] ].

Definition key_widgets : list event :=
  if ui_api_choice =? "Gemini" then
    [ St_sidebar_text_input "Enter Gemini API Key" "password";
      St_sidebar_markdown "[Get Gemini API Key](https://makersuite.google.com/app/apikey)" ]
  else
    [ St_sidebar_text_input "Enter OpenAI API Key" "password";
      St_sidebar_markdown "[Get OpenAI API Key](https://platform.openai.com/api-keys)" ].

Definition key_guidance : list event :=
  [ St_sidebar_warning ("Please enter your " ++ ui_api_choice ++ " API key to continue");
    St_info ("👈 Enter your " ++ ui_api_choice ++ " API key in the sidebar to get started") ].

Definition form_widgets : list event :=
  [ St_text_input "Event Name" "Enter event name";
    St_date_input "Event Date" (datetime_today ui);
    St_text_input "Venue" "Enter event venue";
    St_text_area "Event Description"
      "Enter a detailed description of your event" 150;
    St_button "Generate Posts" "primary" true ].

Definition fill_in_guidance : event :=
  St_info "👈 Fill in all the event details and click 'Generate Posts'".

Definition example_section : list event :=
  [ St_markdown "### Example Input" false;
    St_markdown example_input false ].

(** What is shown for one platform once its post is there: the copy
    button, then the post in its panel. *)
Definition result_panel (post button_id : string) : list event :=
  [ Html (create_copy_button post button_id);
    St_markdown output_container_open true;
    St_markdown post false;
    St_markdown "</div>" true ].

(** The remote request the chosen service gets for a prompt. *)
Definition request_event (prompt : string) : event :=
  if ui_api_choice =? "Gemini" then Call_generate_content prompt
  else Call_chat_completions_create "gpt-3.5-turbo"
         [ {| role := "user"; content := prompt |} ].

End Run.

(* ===================================================================== *)
(** ** Stand-ins for the providers and the user *)
(* ===================================================================== *)

(** A provider double.  The world is the number of calls made so far;
    [key_ok] tells whether setup accepts a key and [answer] what the
    service returns for a prompt. *)
Definition stub_services
    (key_ok : string -> bool) (answer : string -> result string)
  : Services nat unit unit :=
  {| genai_configure := fun k n =>
       (if key_ok k then Ok tt else Raise (mkException "API key not valid"),
        S n);
     genai_GenerativeModel := fun _ n => (Ok tt, S n);
     openai_OpenAI := fun k n =>
       (if key_ok k then Ok tt else Raise (mkException "API key not valid"),
        S n);
     generate_content := fun _ prompt n =>
       (match answer prompt with
        | Ok t => Ok {| text := Ok t |}
        | Raise e => Raise e
        end, S n);
     chat_completions_create := fun _ _ messages n =>
       (match answer (String.concat EmptyString (map content messages)) with
        | Ok t => Ok {| choices := [ {| message_content := Some t |} ] |}
        | Raise e => Raise e
        end, S n) |}.

(** A user who chose [choice], typed [key] and the event fields, picked
    [picked] in a date picker that gives no date before its minimum, and
    pressed the button or not. *)
Definition stub_inputs
    (choice key name venue descr : string) (picked today : date)
    (pressed : bool) : Inputs :=
  {| sidebar_radio := fun _ _ => choice;
     sidebar_text_input := fun _ => key;
     text_input := fun label => if label =? "Event Name" then name else venue;
     date_input := fun _ min_value =>
       if date_le min_value picked then picked else min_value;
     text_area := fun _ => descr;
     button := fun _ => pressed;
     datetime_today := today;
     lc_time := c_locale |}.

(** A service whose answer to the Twitter prompt is a quota error. *)
Definition twitter_down (prompt : string) : result string :=
  if contains "Generate a Twitter post" prompt
  then Raise (mkException "429 quota exceeded")
  else Ok ("  A post!" ++ nl).

Definition tech_conference (choice key : string) (pressed : bool) : Inputs :=
  stub_inputs choice key "Tech Conference 2025" "Virtual Event" "Join us..."
    (mkdate 2025 1 15) (mkdate 2025 1 2) pressed.




(** A service that answers every prompt with a post about forms. *)
Definition html_lesson (_ : string) : result string :=
  Ok "Learn forms: <textarea></textarea> and more".

(* ===================================================================== *)
(** ** What a run shows *)
(* ===================================================================== *)

(** A remote text-generation request was made. *)
Definition generation_triggered (log : list event) : bool :=
  match generation_requests log with
  | [] => false
  | _ :: _ => true
  end.

(** An information box is on the page. *)
Definition guidance_shown (log : list event) : bool :=
  existsb (fun e => match e with St_info _ => true | _ => false end) log.

(** The example of well-formed input is on the page. *)
Definition example_shown (log : list event) : bool :=
  existsb (fun e => match e with
                    | St_markdown body false => body =? example_input
                    | _ => false
                    end) log.

(** A copy button, which comes with every result, is on the page. *)
Definition results_shown (log : list event) : bool :=
  existsb (fun e => match e with Html _ => true | _ => false end) log.

(** The date pickers on the page, each with its label and its minimum. *)
Fixpoint date_pickers (log : list event) : list (string * date) :=
  match log with
  | [] => []
  | St_date_input label min_value :: log' =>
      (label, min_value) :: date_pickers log'
  | _ :: log' => date_pickers log'
  end.






(** A generation request or a copy button. *)
Definition request_or_button (e : event) : bool :=
  match e with
  | Html _ => true
  | Call_generate_content _ | Call_chat_completions_create _ _ => true
  | _ => false
  end.

(** No conversion of [strftime] is left in a text. *)
Fixpoint free_of_percent (s : string) : bool :=
  match s with
  | EmptyString => true
  | String c s' => negb (Ascii.eqb c "%"%char) && free_of_percent s'
  end.

(** A provider double whose services answer with the given responses,
    whatever they are asked. *)
Definition fixed_services
    (answer : GenerateContentResponse) (completion : ChatCompletion)
  : Services nat unit unit :=
  {| genai_configure := fun _ n => (Ok tt, S n);
     genai_GenerativeModel := fun _ n => (Ok tt, S n);
     openai_OpenAI := fun _ n => (Ok tt, S n);
     generate_content := fun _ _ n => (Ok answer, S n);
     chat_completions_create := fun _ _ _ n => (Ok completion, S n) |}.

(* ===================================================================== *)
(** ** More of what a run shows *)
(* ===================================================================== *)

(** A call into the Gemini library, and a call into the OpenAI library. *)
Definition is_genai_call (e : event) : bool :=
  match e with
  | Call_genai_configure _ | Call_GenerativeModel _
  | Call_generate_content _ => true
  | _ => false
  end.

Definition is_openai_call (e : event) : bool :=
  match e with
  | Call_OpenAI _ | Call_chat_completions_create _ _ => true
  | _ => false
  end.

(** The button of the form is on the page. *)
Definition form_shown (log : list event) : bool :=
  existsb (fun e => match e with St_button _ _ _ => true | _ => false end) log.

(** The model names and the shape of the chat request the program uses:
    the Gemini model is "gemini-pro", a chat request goes to
    "gpt-3.5-turbo" with one message, of the user. *)
Definition names_the_models (e : event) : bool :=
  match e with
  | Call_GenerativeModel model_name => model_name =? "gemini-pro"
  | Call_chat_completions_create model messages =>
      (model =? "gpt-3.5-turbo") &&
      match messages with
      | [msg] => role msg =? "user"
      | _ => false
      end
  | _ => true
  end.

(** A text a document reader takes as it is inside a [textarea]: it is
    made of printable ASCII characters, tabs and line feeds only (so it
    holds no NUL, no carriage return and no bytes to decode), among them
    no tag opener and no character reference, and it does not begin
    with a line feed. *)
Definition plain_char (c : ascii) : bool :=
  byte_is 9 c || byte_is 10 c ||
  (between 32 126 c &&
   negb (Ascii.eqb c "<"%char) && negb (Ascii.eqb c "&"%char)).

Definition plain_text (s : string) : bool :=
  forallb plain_char (list_ascii_of_string s) && negb (prefix nl s).

(* ===================================================================== *)
(** ** Substrings *)
(* ===================================================================== *)

Section Substrings.

Lemma append_assoc (a b c : string) : (a ++ b) ++ c = a ++ b ++ c.
Proof.
  induction a as [| x a IH]; simpl.
  - reflexivity.
  - rewrite IH. reflexivity.
Qed.

Lemma prefix_append (n rest : string) : prefix n (n ++ rest) = true.
Proof.
  induction n as [| x n IH]; simpl.
  - destruct rest; reflexivity.
  - destruct (ascii_dec x x) as [_ | ne]; [exact IH | contradiction].
Qed.

Lemma prefix_split (n h : string) :
  prefix n h = true -> exists rest, h = n ++ rest.
Proof.
  revert h. induction n as [| x n IH]; intros h H.
  - exists h. reflexivity.
  - destruct h as [| y h]; simpl in H; [discriminate |].
    destruct (ascii_dec x y) as [-> | _]; [| discriminate].
    destruct (IH h H) as [rest ->]. exists rest. reflexivity.
Qed.

Lemma contains_unfold (n h : string) :
  contains n h =
  prefix n h ||
  match h with
  | EmptyString => false
  | String _ h' => contains n h'
  end.
Proof. destruct h; reflexivity. Qed.

Lemma contains_here (n rest : string) : contains n (n ++ rest) = true.
Proof. rewrite contains_unfold, prefix_append. reflexivity. Qed.

Lemma contains_later (n a h : string) :
  contains n h = true -> contains n (a ++ h) = true.
Proof.
  intros H. induction a as [| x a IH]; simpl.
  - exact H.
  - rewrite IH. apply orb_true_r.
Qed.

(** [contains] decides being a substring. *)
Lemma contains_spec (n h : string) :
  contains n h = true <-> exists a b, h = a ++ n ++ b.
Proof.
  split.
  - induction h as [| x h IH]; intros H; rewrite contains_unfold in H;
      apply orb_true_iff in H; destruct H as [H | H];
      try discriminate;
      try (destruct (prefix_split _ _ H) as [rest E];
           exists EmptyString, rest; exact E).
    destruct (IH H) as (a & b & ->).
    exists (String x a), b. reflexivity.
  - intros (a & b & ->). apply contains_later, contains_here.
Qed.

End Substrings.

(** Finds a part of a concatenation. *)
Ltac find_part :=
  first [ apply contains_here
        | apply contains_later; find_part ].

(* ===================================================================== *)
(** ** The prompt carries the inputs *)
(* ===================================================================== *)

(** C1.  For all strings given as platform, event name, formatted date,
    venue and description, the non-empty ones among them, the prompt
    built by [generate_post_with_gemini] and the prompt built by
    [generate_post_with_chatgpt] each contain all five values verbatim
    as substrings. *)
Theorem prompt_contains_inputs
    (platform event_name date venue description prompt : string) :
  prompt = gemini_prompt platform event_name date description venue \/
  prompt = chatgpt_prompt platform event_name date description venue ->
  contains platform prompt = true /\
  contains event_name prompt = true /\
  contains date prompt = true /\
  contains venue prompt = true /\
  contains description prompt = true.
Proof.
  intros [-> | ->];
    unfold gemini_prompt, chatgpt_prompt; repeat split; find_part.
Qed.

Lemma prompt_contains_inputs_witness :
  let p := chatgpt_prompt "Twitter" "Tech Conference 2025" "January 15, 2025"
             "Join us..." "Virtual Event" in
  contains "Twitter" p = true /\
  contains "Tech Conference 2025" p = true /\
  contains "January 15, 2025" p = true /\
  contains "Virtual Event" p = true /\
  contains "Join us..." p = true.
Proof.
  apply (prompt_contains_inputs "Twitter" "Tech Conference 2025"
           "January 15, 2025" "Virtual Event" "Join us...").
  right. reflexivity.
Defined.

(** C10.  For equal inputs the two generation functions build the same
    prompt, character for character, and the request each sends to its
    provider carries that prompt. *)
Theorem prompts_identical
    {W Model Client : Type} (svc : Services W Model Client)
    (m : Model) (c : Client) (w1 w2 : W)
    (platform event_name date description venue : string) :
  gemini_prompt platform event_name date description venue =
  chatgpt_prompt platform event_name date description venue /\
  generation_requests
    (snd (generate_post_with_gemini svc (GenerativeModel m)
            platform event_name date description venue w1)) =
  [gemini_prompt platform event_name date description venue] /\
  generation_requests
    (snd (generate_post_with_chatgpt svc (OpenAI c)
            platform event_name date description venue w2)) =
  [gemini_prompt platform event_name date description venue].
Proof.
  split; [reflexivity |].
  unfold generate_post_with_gemini, generate_post_with_chatgpt,
    model_generate_content, client_chat_completions_create,
    try_except, bind, call, lift, ret.
  split.
  - destruct (generate_content svc m _ w1) as [[resp | e] w1'];
      [destruct (text resp) |]; reflexivity.
  - destruct (chat_completions_create svc c _ _ w2) as [[resp | e] w2'];
      [| reflexivity].
    destruct (choices resp) as [| ch chs]; [reflexivity |].
    cbn [first_item]. destruct (message_content ch); reflexivity.
Qed.

(* ===================================================================== *)
(** ** Runs of the generation functions *)
(* ===================================================================== *)

Section GenerationRuns.

Context {W Model Client : Type}.
Variable svc : Services W Model Client.
Variables platform event_name date description venue : string.

Local Abbreviation gprompt :=
  (gemini_prompt platform event_name date description venue).
Local Abbreviation cprompt :=
  (chatgpt_prompt platform event_name date description venue).
Local Abbreviation cmessages := [ {| role := "user"; content := cprompt |} ].

Ltac run_generate :=
  unfold generate_post_with_gemini, generate_post_with_chatgpt,
    model_generate_content, client_chat_completions_create,
    try_except, bind, call, lift, ret, raise.

Lemma gemini_request_raises (m : Model) (w w1 : W) (e : Exception) :
  generate_content svc m gprompt w = (Raise e, w1) ->
  generate_post_with_gemini svc (GenerativeModel m)
    platform event_name date description venue w =
  (Ok ("Error generating post: " ++ str e), w1,
   [Call_generate_content gprompt]).
Proof. intros H. run_generate. rewrite H. reflexivity. Qed.

Lemma gemini_text_raises (m : Model) (w w1 : W) resp (e : Exception) :
  generate_content svc m gprompt w = (Ok resp, w1) ->
  text resp = Raise e ->
  generate_post_with_gemini svc (GenerativeModel m)
    platform event_name date description venue w =
  (Ok ("Error generating post: " ++ str e), w1,
   [Call_generate_content gprompt]).
Proof.
  intros H T. run_generate. rewrite H, T. reflexivity.
Qed.

Lemma gemini_answers (m : Model) (w w1 : W) resp (t : string) :
  generate_content svc m gprompt w = (Ok resp, w1) ->
  text resp = Ok t ->
  generate_post_with_gemini svc (GenerativeModel m)
    platform event_name date description venue w =
  (Ok (strip t), w1, [Call_generate_content gprompt]).
Proof.
  intros H T. run_generate. rewrite H, T. reflexivity.
Qed.

Lemma chatgpt_request_raises (c : Client) (w w1 : W) (e : Exception) :
  chat_completions_create svc c "gpt-3.5-turbo" cmessages w = (Raise e, w1) ->
  generate_post_with_chatgpt svc (OpenAI c)
    platform event_name date description venue w =
  (Ok ("Error generating post: " ++ str e), w1,
   [Call_chat_completions_create "gpt-3.5-turbo" cmessages]).
Proof.
  intros H. run_generate. rewrite H.
  reflexivity.
Qed.

Lemma chatgpt_no_choice (c : Client) (w w1 : W) resp :
  chat_completions_create svc c "gpt-3.5-turbo" cmessages w = (Ok resp, w1) ->
  choices resp = [] ->
  generate_post_with_chatgpt svc (OpenAI c)
    platform event_name date description venue w =
  (Ok "Error generating post: list index out of range", w1,
   [Call_chat_completions_create "gpt-3.5-turbo" cmessages]).
Proof.
  intros H E. run_generate. rewrite H, E.
  reflexivity.
Qed.

Lemma chatgpt_no_content (c : Client) (w w1 : W) resp ch chs :
  chat_completions_create svc c "gpt-3.5-turbo" cmessages w = (Ok resp, w1) ->
  choices resp = ch :: chs ->
  message_content ch = None ->
  generate_post_with_chatgpt svc (OpenAI c)
    platform event_name date description venue w =
  (Ok "Error generating post: 'NoneType' object has no attribute 'strip'",
   w1, [Call_chat_completions_create "gpt-3.5-turbo" cmessages]).
Proof.
  intros H E N. run_generate. rewrite H, E.
  cbn [first_item]. rewrite N. reflexivity.
Qed.

Lemma chatgpt_answers (c : Client) (w w1 : W) resp ch chs (t : string) :
  chat_completions_create svc c "gpt-3.5-turbo" cmessages w = (Ok resp, w1) ->
  choices resp = ch :: chs ->
  message_content ch = Some t ->
  generate_post_with_chatgpt svc (OpenAI c)
    platform event_name date description venue w =
  (Ok (strip t), w1, [Call_chat_completions_create "gpt-3.5-turbo" cmessages]).
Proof.
  intros H E N. run_generate. rewrite H, E.
  cbn [first_item]. rewrite N. reflexivity.
Qed.

(** Neither function raises, whatever it is given and whatever the
    provider does; with the handle of its own provider it sends one
    request. *)
Lemma gemini_returns (m : Model) (w : W) :
  exists post w1,
    generate_post_with_gemini svc (GenerativeModel m)
      platform event_name date description venue w =
    (Ok post, w1, [Call_generate_content gprompt]).
Proof.
  destruct (generate_content svc m gprompt w) as [[resp | e] w1] eqn:H.
  - destruct (text resp) as [t | e] eqn:T.
    + eexists _, _. eapply gemini_answers; eassumption.
    + eexists _, _. eapply gemini_text_raises; eassumption.
  - eexists _, _. eapply gemini_request_raises; eassumption.
Qed.

Lemma chatgpt_returns (c : Client) (w : W) :
  exists post w1,
    generate_post_with_chatgpt svc (OpenAI c)
      platform event_name date description venue w =
    (Ok post, w1, [Call_chat_completions_create "gpt-3.5-turbo" cmessages]).
Proof.
  destruct (chat_completions_create svc c "gpt-3.5-turbo" cmessages w)
    as [[resp | e] w1] eqn:H.
  - destruct (choices resp) as [| ch chs] eqn:E.
    + eexists _, _. eapply chatgpt_no_choice; eassumption.
    + destruct (message_content ch) as [t |] eqn:N.
      * eexists _, _. eapply chatgpt_answers; eassumption.
      * eexists _, _. eapply chatgpt_no_content; eassumption.
  - eexists _, _. eapply chatgpt_request_raises; eassumption.
Qed.

Lemma generate_never_raises (model : handle) (w : W) :
  (exists post w1 l,
     generate_post_with_gemini svc model
       platform event_name date description venue w = (Ok post, w1, l)) /\
  (exists post w1 l,
     generate_post_with_chatgpt svc model
       platform event_name date description venue w = (Ok post, w1, l)).
Proof.
  destruct model as [m | c]; split.
  - destruct (gemini_returns m w) as (post & w1 & E). eauto.
  - eexists _, _, _. reflexivity.
  - eexists _, _, _. reflexivity.
  - destruct (chatgpt_returns c w) as (post & w1 & E). eauto.
Qed.

End GenerationRuns.

(* ===================================================================== *)
(** ** Runs of [main] *)
(* ===================================================================== *)

Section MainRuns.

Context {W Model Client : Type}.
Variable svc : Services W Model Client.
Variable ui : Inputs.

Ltac open_ui :=
  unfold setup, generate_post, fields_and_button, key_widgets, key_guidance,
    ui_api_key, ui_event_name, ui_date, ui_venue, ui_description,
    ui_generate, ui_api_choice in *.

Ltac step := cbv beta iota zeta delta [bind emit ret try_except].

(** Without a key the run ends after the guidance. *)
Lemma main_without_key (w : W) :
  truthy (ui_api_key ui) = false ->
  main svc ui w =
  (Ok tt, w, page_top ++ key_widgets ui ++ key_guidance ui)%list.
Proof.
  open_ui. intros K. unfold main.
  destruct (_ =? "Gemini"); step; rewrite K; reflexivity.
Qed.

(** When the setup raises the run ends after the error message. *)
Lemma main_setup_raises (w w1 : W) (e : Exception) (l : list event) :
  truthy (ui_api_key ui) = true ->
  setup svc ui w = (Raise e, w1, l) ->
  main svc ui w =
  (Ok tt, w1,
   page_top ++ key_widgets ui ++ l ++
   [St_error ("Error initializing " ++ ui_api_choice ui ++ ": " ++ str e)])%list.
Proof.
  open_ui. intros K S. unfold main.
  destruct (_ =? "Gemini"); step; rewrite K; cbn [negb]; rewrite S;
    cbn [app]; rewrite app_nil_r; reflexivity.
Qed.

(** With a provider set up but a field empty or the button not pressed,
    the form is followed by the example, and by the guidance first when
    the button was not pressed. *)
Lemma main_shows_example (w w1 : W) model (l : list event) :
  truthy (ui_api_key ui) = true ->
  setup svc ui w = (Ok model, w1, l) ->
  fields_and_button ui = false ->
  main svc ui w =
  (Ok tt, w1,
   page_top ++ key_widgets ui ++ l ++ form_widgets ui ++
   (if negb (ui_generate ui) then [fill_in_guidance] else []) ++
   example_section)%list.
Proof.
  open_ui. intros K S F. unfold main.
  destruct (_ =? "Gemini"); step; rewrite K; cbn [negb]; rewrite S;
    rewrite F; destruct (button ui "Generate Posts");
    cbn [app negb]; rewrite app_nil_r; reflexivity.
Qed.

(** With a provider set up, the fields filled and the button pressed,
    the three posts are generated and shown one after the other. *)
Lemma main_generates (w w1 w2 w3 w4 : W) model (l l1 l2 l3 : list event)
    (linkedin_post twitter_post whatsapp_post : string) :
  truthy (ui_api_key ui) = true ->
  setup svc ui w = (Ok model, w1, l) ->
  fields_and_button ui = true ->
  generate_post svc ui model "LinkedIn" w1 = (Ok linkedin_post, w2, l1) ->
  generate_post svc ui model "Twitter" w2 = (Ok twitter_post, w3, l2) ->
  generate_post svc ui model "WhatsApp" w3 = (Ok whatsapp_post, w4, l3) ->
  main svc ui w =
  (Ok tt, w4,
   page_top ++ key_widgets ui ++ l ++ form_widgets ui ++
   [St_spinner ("Generating posts using " ++ ui_api_choice ui ++ " AI...")] ++
   [St_subheader "LinkedIn Post"] ++ l1 ++
   result_panel linkedin_post "linkedin" ++
   [St_subheader "Twitter Post"] ++ l2 ++
   result_panel twitter_post "twitter" ++
   [St_subheader "WhatsApp Post"] ++ l3 ++
   result_panel whatsapp_post "whatsapp")%list.
Proof.
  open_ui. intros K S F G1 G2 G3. unfold main.
  destruct (_ =? "Gemini"); step; rewrite K; cbn [negb]; rewrite S;
    rewrite F, G1, G2, G3;
    cbn [app]; rewrite ?app_nil_r; reflexivity.
Qed.

End MainRuns.

(* ===================================================================== *)
(** ** Requests in a log *)
(* ===================================================================== *)

Section Logs.

Lemma generation_requests_app (l1 l2 : list event) :
  generation_requests (l1 ++ l2) =
  (generation_requests l1 ++ generation_requests l2)%list.
Proof.
  induction l1 as [| e l1 IH]; simpl.
  - reflexivity.
  - destruct (generation_request e); simpl; rewrite IH; reflexivity.
Qed.

Lemma provider_calls_app (l1 l2 : list event) :
  provider_calls (l1 ++ l2) = (provider_calls l1 ++ provider_calls l2)%list.
Proof. apply filter_app. Qed.

Context {W Model Client : Type}.
Variable svc : Services W Model Client.
Variable ui : Inputs.

Lemma page_top_quiet :
  generation_requests page_top = [] /\ provider_calls page_top = [].
Proof. split; reflexivity. Qed.

Lemma key_widgets_quiet :
  generation_requests (key_widgets ui) = [] /\
  provider_calls (key_widgets ui) = [].
Proof. unfold key_widgets. destruct (_ =? _); split; reflexivity. Qed.



(** The setup sends no generation request, makes only calls into the
    provider library, and returns the handle of the chosen service. *)
Lemma setup_run (w : W) :
  let '(r, _, l) := setup svc ui w in
  generation_requests l = [] /\
  Forall (fun e => is_provider_call e = true) l /\
  forall model, r = Ok model ->
    if ui_api_choice ui =? "Gemini"
    then exists m, model = GenerativeModel m
    else exists c, model = OpenAI c.
Proof.
  unfold setup, setup_gemini, setup_chatgpt, bind, call, ret.
  destruct (ui_api_choice ui =? "Gemini").
  - destruct (genai_configure svc _ w) as [[[] | e] w1].
    + destruct (genai_GenerativeModel svc _ w1) as [[m | e] w2];
        (split; [reflexivity |]); (split; [repeat constructor |]);
        intros model E; inversion E; eauto.
    + split; [reflexivity |]. split; [repeat constructor |].
      intros model E; inversion E.
  - destruct (openai_OpenAI svc _ w) as [[c | e] w1];
      (split; [reflexivity |]); (split; [repeat constructor |]);
      intros model E; inversion E; eauto.
Qed.

Lemma setup_no_request (w w1 : W) r (l : list event) :
  setup svc ui w = (r, w1, l) -> generation_requests l = [].
Proof. intros E. pose proof (setup_run w) as H. rewrite E in H. apply H. Qed.

(** With the handle the setup returned, the generation for a platform
    returns a post and sends one request, carrying the platform's
    prompt. *)
Lemma generate_post_run (w w1 wa : W) model (l : list event)
    (platform : string) :
  setup svc ui w = (Ok model, w1, l) ->
  exists post wb,
    generate_post svc ui model platform wa =
    (Ok post, wb, [request_event ui (ui_prompt ui platform)]).
Proof.
  intros E. pose proof (setup_run w) as H. rewrite E in H.
  destruct H as (_ & _ & K). specialize (K model eq_refl).
  unfold generate_post, request_event, ui_prompt.
  destruct (ui_api_choice ui =? "Gemini").
  - destruct K as [m ->]. apply gemini_returns.
  - destruct K as [c ->]. apply chatgpt_returns.
Qed.

End Logs.

(* ===================================================================== *)
(** ** What provider calls put on the page: nothing *)
(* ===================================================================== *)

Section Shown.

Lemma provider_calls_show_nothing (l : list event) :
  Forall (fun e => is_provider_call e = true) l ->
  guidance_shown l = false /\ example_shown l = false /\
  results_shown l = false /\ date_pickers l = [].
Proof.
  induction 1 as [| e l He _ IH].
  - repeat split.
  - destruct IH as (G & E & R & D).
    destruct e; simpl in He; try discriminate He;
      (split; [exact G | split; [exact E | split; [exact R | exact D]]]).
Qed.


Context {W Model Client : Type}.
Variable svc : Services W Model Client.
Variable ui : Inputs.

Lemma setup_shows_nothing (w w1 : W) r (l : list event) :
  setup svc ui w = (r, w1, l) ->
  guidance_shown l = false /\ example_shown l = false /\
  results_shown l = false /\ date_pickers l = [].
Proof.
  intros E. pose proof (setup_run svc ui w) as H. rewrite E in H.
  apply provider_calls_show_nothing, H.
Qed.

(** The four ways a run of [main] can go. *)
Lemma main_run_cases (w : W) :
  (truthy (ui_api_key ui) = false /\
   main svc ui w =
   (Ok tt, w, (page_top ++ key_widgets ui ++ key_guidance ui)%list)) \/
  (truthy (ui_api_key ui) = true /\
   exists e w1 l,
     setup svc ui w = (Raise e, w1, l) /\
     main svc ui w =
     (Ok tt, w1,
      (page_top ++ key_widgets ui ++ l ++
       [St_error ("Error initializing " ++ ui_api_choice ui ++ ": " ++ str e)])%list)) \/
  (truthy (ui_api_key ui) = true /\
   exists model w1 l,
     setup svc ui w = (Ok model, w1, l) /\
     fields_and_button ui = false /\
     main svc ui w =
     (Ok tt, w1,
      (page_top ++ key_widgets ui ++ l ++ form_widgets ui ++
       (if negb (ui_generate ui) then [fill_in_guidance] else []) ++
       example_section)%list)) \/
  (truthy (ui_api_key ui) = true /\
   exists model w1 l p1 p2 p3 w4,
     setup svc ui w = (Ok model, w1, l) /\
     fields_and_button ui = true /\
     main svc ui w =
     (Ok tt, w4,
      (page_top ++ key_widgets ui ++ l ++ form_widgets ui ++
       [St_spinner ("Generating posts using " ++ ui_api_choice ui ++ " AI...")] ++
       [St_subheader "LinkedIn Post"] ++
       [request_event ui (ui_prompt ui "LinkedIn")] ++
       result_panel p1 "linkedin" ++
       [St_subheader "Twitter Post"] ++
       [request_event ui (ui_prompt ui "Twitter")] ++
       result_panel p2 "twitter" ++
       [St_subheader "WhatsApp Post"] ++
       [request_event ui (ui_prompt ui "WhatsApp")] ++
       result_panel p3 "whatsapp")%list)).
Proof.
  destruct (truthy (ui_api_key ui)) eqn:K.
  2: { left. split; [reflexivity |]. apply main_without_key, K. }
  right.
  destruct (setup svc ui w) as [[[model | e] w1] l] eqn:S.
  2: { left. split; [reflexivity |]. exists e, w1, l.
       split; [reflexivity |]. apply main_setup_raises; assumption. }
  right.
  destruct (fields_and_button ui) eqn:F.
  2: { left. split; [reflexivity |]. exists model, w1, l.
       split; [reflexivity |]. split; [reflexivity |].
       eapply main_shows_example; eassumption. }
  right. split; [reflexivity |].
  destruct (generate_post_run svc ui w w1 w1 model l "LinkedIn" S)
    as (p1 & w2 & G1).
  destruct (generate_post_run svc ui w w1 w2 model l "Twitter" S)
    as (p2 & w3 & G2).
  destruct (generate_post_run svc ui w w1 w3 model l "WhatsApp" S)
    as (p3 & w4 & G3).
  exists model, w1, l, p1, p2, p3, w4.
  split; [reflexivity |]. split; [reflexivity |].
  exact (main_generates svc ui _ _ _ _ _ _ _ _ _ _ _ _ _ K S F G1 G2 G3).
Qed.

End Shown.

(* ===================================================================== *)
(** ** The missing key *)
(* ===================================================================== *)

(** C3.  In every run in which the API key entered is the empty string,
    no provider is set up and no remote generation call is made: the log
    holds no call into a provider library and the outside world is left
    as it was; the run shows the warning and the information box that
    ask for the key, and ends. *)
Theorem no_key_no_provider_call
    {W Model Client : Type} (svc : Services W Model Client)
    (ui : Inputs) (w : W) :
  ui_api_key ui = EmptyString ->
  fst (main svc ui w) = (Ok tt, w) /\
  provider_calls (snd (main svc ui w)) = [] /\
  In (St_sidebar_warning
        ("Please enter your " ++ ui_api_choice ui ++ " API key to continue"))
     (snd (main svc ui w)) /\
  In (St_info
        ("👈 Enter your " ++ ui_api_choice ui ++
         " API key in the sidebar to get started"))
     (snd (main svc ui w)).
Proof.
  intros K. rewrite main_without_key by (rewrite K; reflexivity).
  cbn [fst snd]. split; [reflexivity |].
  split.
  - rewrite !provider_calls_app.
    rewrite (proj2 page_top_quiet), (proj2 (key_widgets_quiet ui)).
    reflexivity.
  - rewrite !in_app_iff. unfold key_guidance.
    split; right; right; simpl; auto.
Qed.

Lemma no_key_no_provider_call_witness :
  fst (main (stub_services (fun _ => true) twitter_down)
            (tech_conference "ChatGPT" EmptyString true) 0) = (Ok tt, 0) /\
  provider_calls
    (snd (main (stub_services (fun _ => true) twitter_down)
               (tech_conference "ChatGPT" EmptyString true) 0)) = [].
Proof.
  pose proof (no_key_no_provider_call
                (stub_services (fun _ => true) twitter_down)
                (tech_conference "ChatGPT" EmptyString true) 0 eq_refl) as H.
  split; [exact (proj1 H) | exact (proj1 (proj2 H))].
Defined.

(* ===================================================================== *)
(** ** The failing setup *)
(* ===================================================================== *)

(** C7.  In every run in which the provider setup (configuring Gemini
    and making its model, or constructing the ChatGPT client) raises, the
    error message naming the service and the exception's text is put on
    the page as the last element, and the run ends there: the form is not
    shown and no generation request is made. *)
Theorem setup_failure_blocks_generation
    {W Model Client : Type} (svc : Services W Model Client)
    (ui : Inputs) (w w1 : W) (e : Exception) (l : list event) :
  truthy (ui_api_key ui) = true ->
  setup svc ui w = (Raise e, w1, l) ->
  main svc ui w =
    (Ok tt, w1,
     (page_top ++ key_widgets ui ++ l ++
      [St_error ("Error initializing " ++ ui_api_choice ui ++ ": " ++ str e)])%list) /\
  generation_triggered (snd (main svc ui w)) = false /\
  results_shown (snd (main svc ui w)) = false.
Proof.
  intros K S. rewrite (main_setup_raises svc ui w w1 e l K S).
  split; [reflexivity |]. cbn [snd].
  destruct (setup_shows_nothing svc ui w w1 _ l S) as (_ & _ & R & _).
  split.
  - unfold generation_triggered. rewrite !generation_requests_app.
    rewrite (proj1 page_top_quiet), (proj1 (key_widgets_quiet ui)),
      (setup_no_request svc ui w w1 _ l S).
    reflexivity.
  - unfold results_shown in *. rewrite !existsb_app, R.
    unfold key_widgets. destruct (_ =? _); reflexivity.
Qed.

Lemma setup_failure_blocks_generation_witness :
  main (stub_services (fun _ => false) twitter_down)
       (tech_conference "Gemini" "wrong key" true) 0 =
    (Ok tt, 1,
     (page_top ++ key_widgets (tech_conference "Gemini" "wrong key" true) ++
      [Call_genai_configure "wrong key"] ++
      [St_error "Error initializing Gemini: API key not valid"])%list).
Proof.
  exact (proj1 (setup_failure_blocks_generation
                  (stub_services (fun _ => false) twitter_down)
                  (tech_conference "Gemini" "wrong key" true) 0 1
                  (mkException "API key not valid")
                  [Call_genai_configure "wrong key"] eq_refl eq_refl)).
Defined.

(* ===================================================================== *)
(** ** The three posts *)
(* ===================================================================== *)




(* ===================================================================== *)
(** ** A failing generation *)
(* ===================================================================== *)

(** C2.  For every platform and both services: when the remote
    text-generation call raises an exception, the generation function
    does not raise but returns the text "Error generating post: "
    followed by the exception's message.  In a run of [main] that
    generates, each of the three posts shown is what the function
    returned for that platform alone, in the state of the world its own
    call found, so a failure for one platform leaves the other two posts
    to their own calls and the run goes on to its end. *)
Theorem generation_failure_is_local
    {W Model Client : Type} (svc : Services W Model Client) :
  (forall (m : Model) platform event_name date description venue
          (w w1 : W) (e : Exception),
     generate_content svc m
       (gemini_prompt platform event_name date description venue) w =
       (Raise e, w1) ->
     fst (generate_post_with_gemini svc (GenerativeModel m)
            platform event_name date description venue w) =
     (Ok ("Error generating post: " ++ str e), w1)) /\
  (forall (c : Client) platform event_name date description venue
          (w w1 : W) (e : Exception),
     chat_completions_create svc c "gpt-3.5-turbo"
       [ {| role := "user";
            content :=
              chatgpt_prompt platform event_name date description venue |} ]
       w = (Raise e, w1) ->
     fst (generate_post_with_chatgpt svc (OpenAI c)
            platform event_name date description venue w) =
     (Ok ("Error generating post: " ++ str e), w1)) /\
  (forall (ui : Inputs) (w w1 : W) (model : handle) (l : list event),
     truthy (ui_api_key ui) = true ->
     setup svc ui w = (Ok model, w1, l) ->
     fields_and_button ui = true ->
     exists (linkedin_post twitter_post whatsapp_post : string)
            (w2 w3 w4 : W) (l1 l2 l3 : list event),
       generate_post svc ui model "LinkedIn" w1 = (Ok linkedin_post, w2, l1) /\
       generate_post svc ui model "Twitter" w2 = (Ok twitter_post, w3, l2) /\
       generate_post svc ui model "WhatsApp" w3 = (Ok whatsapp_post, w4, l3) /\
       main svc ui w =
       (Ok tt, w4,
        (page_top ++ key_widgets ui ++ l ++ form_widgets ui ++
         [St_spinner ("Generating posts using " ++ ui_api_choice ui ++ " AI...")] ++
         [St_subheader "LinkedIn Post"] ++ l1 ++
         result_panel linkedin_post "linkedin" ++
         [St_subheader "Twitter Post"] ++ l2 ++
         result_panel twitter_post "twitter" ++
         [St_subheader "WhatsApp Post"] ++ l3 ++
         result_panel whatsapp_post "whatsapp")%list)).
Proof.
  split; [| split].
  - intros m platform event_name date description venue w w1 e H.
    rewrite (gemini_request_raises svc _ _ _ _ _ m w w1 e H). reflexivity.
  - intros c platform event_name date description venue w w1 e H.
    rewrite (chatgpt_request_raises svc _ _ _ _ _ c w w1 e H). reflexivity.
  - intros ui w w1 model l K S F.
    destruct (generate_post_run svc ui w w1 w1 model l "LinkedIn" S)
      as (p1 & w2 & G1).
    destruct (generate_post_run svc ui w w1 w2 model l "Twitter" S)
      as (p2 & w3 & G2).
    destruct (generate_post_run svc ui w w1 w3 model l "WhatsApp" S)
      as (p3 & w4 & G3).
    exists p1, p2, p3, w2, w3, w4. eexists _, _, _.
    split; [exact G1 |]. split; [exact G2 |]. split; [exact G3 |].
    exact (main_generates svc ui _ _ _ _ _ _ _ _ _ _ _ _ _ K S F G1 G2 G3).
Qed.

Lemma generation_failure_is_local_witness :
  fst (generate_post_with_gemini
         (stub_services (fun _ => true) twitter_down) (GenerativeModel tt)
         "Twitter" "Tech Conference 2025" "January 15, 2025" "Join us..."
         "Virtual Event" 2) =
  (Ok "Error generating post: 429 quota exceeded", 3).
Proof.
  exact (proj1 (generation_failure_is_local
                  (stub_services (fun _ => true) twitter_down))
           tt "Twitter" "Tech Conference 2025" "January 15, 2025"
           "Join us..." "Virtual Event" 2 3
           (mkException "429 quota exceeded") eq_refl).
Defined.

(** The run behind the witness: the Twitter request fails, the LinkedIn
    and the WhatsApp posts are there. *)
Example twitter_down_run :
  let log := snd (main (stub_services (fun _ => true) twitter_down)
                       (tech_conference "Gemini" "key" true) 0) in
  In (St_markdown "A post!" false) log /\
  In (St_markdown "Error generating post: 429 quota exceeded" false) log /\
  In (Html (create_copy_button "A post!" "whatsapp")) log /\
  length (generation_requests log) = 3.
Proof.
  vm_compute.
  repeat split; repeat (first [left; reflexivity | right]).
Qed.

(* ===================================================================== *)
(** ** When generation is triggered *)
(* ===================================================================== *)

Section Trigger.

Lemma truthy_spec (s : string) : truthy s = true <-> s <> EmptyString.
Proof. destruct s; simpl; split; congruence. Qed.

Lemma truthy_false (s : string) : truthy s = false <-> s = EmptyString.
Proof. destruct s; simpl; split; congruence. Qed.



End Trigger.




(* ===================================================================== *)
(** ** The event date *)
(* ===================================================================== *)



(* ===================================================================== *)
(** ** The date format *)
(* ===================================================================== *)

Section DateFormat.

Lemma append_nil_r (s : string) : s ++ EmptyString = s.
Proof. induction s as [| c s IH]; simpl; [| rewrite IH]; reflexivity. Qed.


(** A text without conversions is rendered as it is. *)
Lemma strftime_plain (s : string) (d : date) :
  free_of_percent s = true -> strftime s d = s.
Proof.
  induction s as [| c s IH]; intros H.
  - reflexivity.
  - cbn [free_of_percent] in H. apply andb_true_iff in H. destruct H as [C F].
    specialize (IH F).
    assert (E : strftime (String c s) d = String c (strftime s d)).
    { destruct c as [[] [] [] [] [] [] [] []]; try reflexivity.
      discriminate C. }
    rewrite E, IH. reflexivity.
Qed.




Lemma month_in_range (m : Z) :
  (1 <= m <= 12)%Z ->
  m = 1%Z \/ m = 2%Z \/ m = 3%Z \/ m = 4%Z \/ m = 5%Z \/ m = 6%Z \/
  m = 7%Z \/ m = 8%Z \/ m = 9%Z \/ m = 10%Z \/ m = 11%Z \/ m = 12%Z.
Proof. lia. Qed.

Lemma month_name_listed (m : Z) :
  (1 <= m <= 12)%Z ->
  In (month_name m) month_names /\ free_of_percent (month_name m) = true.
Proof.
  intros H. destruct (month_in_range m H)
    as [-> | [-> | [-> | [-> | [-> | [-> | [-> | [-> | [-> | [-> | [-> | ->]]]]]]]]]]];
    (split; [simpl; tauto | reflexivity]).
Qed.

Lemma valid_date_bounds (d : date) :
  valid_date d = true ->
  (1 <= month d <= 12)%Z /\ (1 <= day d <= 31)%Z /\ (1 <= year d <= 9999)%Z.
Proof.
  unfold valid_date. rewrite !andb_true_iff, !Z.leb_le.
  intros (((((Y1 & Y2) & M1) & M2) & D1) & D2).
  assert (days_in_month (year d) (month d) <= 31)%Z.
  { destruct (month_in_range (month d) (conj M1 M2))
      as [-> | [-> | [-> | [-> | [-> | [-> | [-> | [-> | [-> | [-> | [-> | ->]]]]]]]]]]];
      simpl; try destruct (is_leap _); lia. }
  lia.
Qed.

Lemma two_digits_length (n : Z) :
  (1 <= n <= 31)%Z -> String.length (two_digits n) = 2.
Proof.
  intros H.
  assert (E : exists k : nat, (k < 32)%nat /\ n = Z.of_nat k).
  { exists (Z.to_nat n). split; lia. }
  destruct E as (k & L & ->).
  do 32 (destruct k as [| k]; [vm_compute; lia || reflexivity |]).
  lia.
Qed.

End DateFormat.

Section DateFormatLocale.




(** In the C locale [strftime_l] is [strftime]. *)
Lemma strftime_in_c_locale (n : nat) :
  forall fmt d, String.length fmt <= n ->
    strftime_l c_locale fmt d = strftime fmt d.
Proof.
  induction n as [| n IH]; intros fmt d L.
  - destruct fmt; [reflexivity | simpl in L; lia].
  - destruct fmt as [| c fmt]; [reflexivity |].
    simpl in L.
    assert (T : strftime_l c_locale fmt d = strftime fmt d)
      by (apply IH; lia).
    destruct fmt as [| c2 rest].
    + destruct c as [[] [] [] [] [] [] [] []]; reflexivity.
    + simpl in L.
      assert (R : strftime_l c_locale rest d = strftime rest d)
        by (apply IH; lia).
      destruct (Ascii.eqb c "%"%char) eqn:P.
      * apply Ascii.eqb_eq in P. subst c.
        cbn [strftime_l strftime]. rewrite R. reflexivity.
      * assert (E1 : strftime_l c_locale (String c (String c2 rest)) d =
                     String c (strftime_l c_locale (String c2 rest) d)).
        { destruct c as [[] [] [] [] [] [] [] []]; try reflexivity.
          discriminate P. }
        assert (E2 : strftime (String c (String c2 rest)) d =
                     String c (strftime (String c2 rest) d)).
        { destruct c as [[] [] [] [] [] [] [] []]; try reflexivity.
          discriminate P. }
        rewrite E1, E2, T. reflexivity.
Qed.

End DateFormatLocale.




(* ===================================================================== *)
(** ** The copy button *)
(* ===================================================================== *)

Section CopyButton.

Lemma prefix_append_both (a n h : string) :
  prefix n h = true -> prefix (a ++ n) (a ++ h) = true.
Proof.
  intros H. induction a as [| x a IH]; simpl.
  - exact H.
  - destruct (ascii_dec x x) as [_ | ne]; [exact IH | contradiction].
Qed.

Lemma contains_prefix (n h : string) :
  prefix n h = true -> contains n h = true.
Proof. intros H. rewrite contains_unfold, H. reflexivity. Qed.

(** The markup holds the text as it is between the start tag and the
    end tag of the [textarea] the script reads. *)
Lemma copy_button_embeds_text (text button_id : string) :
  contains (textarea_start_tag button_id ++ text ++ "</textarea>")
           (create_copy_button text button_id) = true.
Proof.
  unfold create_copy_button, textarea_start_tag.
  rewrite !append_assoc.
  repeat lazymatch goal with
         | |- contains _ ("            <textarea id=" ++ _) = true => fail
         | |- _ => apply contains_later
         end.
  lazymatch goal with
  | |- contains ?n (_ ++ ?rest) = true =>
      change (contains n ("            " ++ "<textarea id=" ++ rest) = true)
  end.
  apply contains_later, contains_prefix.
  repeat apply prefix_append_both.
  apply prefix_append.
Qed.

(** On a text without markup of its own the button copies the text. *)
Example copies_plain_text :
  copied_text "Error generating post: 429 quota exceeded" "twitter" =
  Some "Error generating post: 429 quota exceeded".
Proof. vm_compute. reflexivity. Qed.

End CopyButton.

(** C5, where the code falls short.  The post "Learn forms:
    <textarea></textarea> and more" is shown in the panel as it is and
    is the text handed to [create_copy_button], but the [textarea] the
    button copies from ends at the post's own end tag, so the button
    copies "Learn forms: <textarea>" only. *)
Theorem copy_button_cuts_text :
  let post := "Learn forms: <textarea></textarea> and more" in
  let log := snd (main (stub_services (fun _ => true) html_lesson)
                       (tech_conference "Gemini" "key" true) 0) in
  In (St_markdown post false) log /\
  In (Html (create_copy_button post "linkedin")) log /\
  copied_text post "linkedin" = Some "Learn forms: <textarea>" /\
  copied_text post "linkedin" <> Some post.
Proof.
  vm_compute.
  split; [repeat (first [left; reflexivity | right]) |].
  split; [repeat (first [left; reflexivity | right]) |].
  split; [reflexivity | discriminate].
Qed.

(* ===================================================================== *)
(** ** Every run, whatever its branch *)
(* ===================================================================== *)

Section EveryRun.

Context {W Model Client : Type}.
Variable svc : Services W Model Client.
Variable ui : Inputs.

(** The calls of a setup: for Gemini the configuration and, when that
    did not raise, the model; for ChatGPT the client. *)
Lemma setup_log_cases (w w1 : W) r (l : list event) :
  setup svc ui w = (r, w1, l) ->
  if ui_api_choice ui =? "Gemini" then
    l = [Call_genai_configure (ui_api_key ui)] /\ (exists e, r = Raise e) \/
    l = [Call_genai_configure (ui_api_key ui);
         Call_GenerativeModel "gemini-pro"]
  else l = [Call_OpenAI (ui_api_key ui)].
Proof.
  unfold setup, setup_gemini, setup_chatgpt, bind, call, ret.
  destruct (ui_api_choice ui =? "Gemini").
  - destruct (genai_configure svc _ w) as [[[] | e] w2].
    + destruct (genai_GenerativeModel svc _ w2) as [[m | e] w3];
        intros E; inversion E; right; reflexivity.
    + intros E; inversion E. left. split; [reflexivity | eauto].
  - destruct (openai_OpenAI svc _ w) as [[c | e] w2];
      intros E; inversion E; reflexivity.
Qed.

End EveryRun.

(** In every run the page configuration is the first thing done, before
    any other element, and the page always goes on with the title, the
    choice of the service and the key field, which is a password
    field. *)
Theorem page_always_starts_the_same
    {W Model Client : Type} (svc : Services W Model Client)
    (ui : Inputs) (w : W) :
  hd_error (snd (main svc ui w)) =
    Some (St_set_page_config "Social Media Post Generator" "wide") /\
  exists label link rest,
    snd (main svc ui w) =
    (page_top ++
     [St_sidebar_text_input label "password"; St_sidebar_markdown link] ++
     rest)%list.
Proof.
  assert (KW : exists label link,
             key_widgets ui =
             [St_sidebar_text_input label "password";
              St_sidebar_markdown link]).
  { unfold key_widgets. destruct (_ =? _); eexists _, _; reflexivity. }
  destruct KW as (label & link & KW).
  destruct (main_run_cases svc ui w)
    as [(K & E) | [(K & e & w1 & l & S & E) |
        [(K & model & w1 & l & S & F & E) |
         (K & model & w1 & l & p1 & p2 & p3 & w4 & S & F & E)]]];
    rewrite E; cbn [snd]; rewrite KW;
    (split; [reflexivity | exists label, link; eexists; reflexivity]).
Qed.

(** With a key entered, every run sets up the provider, whether or not
    the button was pressed and the fields are filled: the first call
    into a provider library hands the key of the chosen service to that
    service. *)
Theorem setup_on_every_run_with_key
    {W Model Client : Type} (svc : Services W Model Client)
    (ui : Inputs) (w : W) :
  ui_api_key ui <> EmptyString ->
  exists rest,
    provider_calls (snd (main svc ui w)) =
    (if ui_api_choice ui =? "Gemini"
     then Call_genai_configure (ui_api_key ui)
     else Call_OpenAI (ui_api_key ui)) :: rest.
Proof.
  intros N. apply truthy_spec in N.
  pose proof (key_widgets_quiet ui) as [_ KP].
  destruct (main_run_cases svc ui w)
    as [(K & E) | [(K & e & w1 & l & S & E) |
        [(K & model & w1 & l & S & F & E) |
         (K & model & w1 & l & p1 & p2 & p3 & w4 & S & F & E)]]];
    [congruence | | |];
    rewrite E; cbn [snd]; rewrite !provider_calls_app, KP;
    pose proof (setup_log_cases svc ui w w1 _ l S) as C;
    destruct (ui_api_choice ui =? "Gemini");
    try destruct C as [(-> & _) | ->]; try subst l;
    eexists; reflexivity.
Qed.

Lemma setup_on_every_run_with_key_witness :
  exists rest,
    provider_calls
      (snd (main (stub_services (fun _ => true) twitter_down)
                 (tech_conference "ChatGPT" "sk-1" false) 0)) =
    Call_OpenAI "sk-1" :: rest.
Proof.
  apply (setup_on_every_run_with_key
           (stub_services (fun _ => true) twitter_down)
           (tech_conference "ChatGPT" "sk-1" false) 0).
  discriminate.
Defined.

(** A run makes at most five calls into a provider library, at most
    three of them generation requests. *)
Theorem provider_calls_bounded
    {W Model Client : Type} (svc : Services W Model Client)
    (ui : Inputs) (w : W) :
  length (provider_calls (snd (main svc ui w))) <= 5 /\
  length (generation_requests (snd (main svc ui w))) <= 3.
Proof.
  pose proof (key_widgets_quiet ui) as [KQ KP].
  destruct (main_run_cases svc ui w)
    as [(K & E) | [(K & e & w1 & l & S & E) |
        [(K & model & w1 & l & S & F & E) |
         (K & model & w1 & l & p1 & p2 & p3 & w4 & S & F & E)]]];
    rewrite E; cbn [snd];
    rewrite !provider_calls_app, !generation_requests_app, KP, KQ;
    try (rewrite (setup_no_request svc ui w w1 _ l S);
         pose proof (setup_log_cases svc ui w w1 _ l S) as C);
    unfold request_event;
    destruct (ui_api_choice ui =? "Gemini");
    try destruct C as [(-> & _) | ->]; try subst l;
    try destruct (ui_generate ui);
    cbn; lia.
Qed.

(** A run calls the library of the chosen service only: with "Gemini"
    chosen nothing goes to OpenAI, and with any other choice nothing
    goes to Gemini. *)
Theorem one_provider_per_run
    {W Model Client : Type} (svc : Services W Model Client)
    (ui : Inputs) (w : W) :
  existsb (if ui_api_choice ui =? "Gemini"
           then is_openai_call else is_genai_call)
          (snd (main svc ui w)) = false.
Proof.
  destruct (main_run_cases svc ui w)
    as [(K & E) | [(K & e & w1 & l & S & E) |
        [(K & model & w1 & l & S & F & E) |
         (K & model & w1 & l & p1 & p2 & p3 & w4 & S & F & E)]]];
    rewrite E; cbn [snd];
    try pose proof (setup_log_cases svc ui w w1 _ l S) as C;
    unfold request_event, key_widgets, key_guidance;
    destruct (ui_api_choice ui =? "Gemini");
    try destruct C as [(-> & _) | ->]; try subst l;
    try destruct (ui_generate ui);
    reflexivity.
Qed.

(** Every Gemini model a run makes is "gemini-pro", and every chat
    request it sends goes to "gpt-3.5-turbo" with exactly one message,
    whose role is "user". *)
Theorem models_are_fixed
    {W Model Client : Type} (svc : Services W Model Client)
    (ui : Inputs) (w : W) :
  forallb names_the_models (snd (main svc ui w)) = true.
Proof.
  destruct (main_run_cases svc ui w)
    as [(K & E) | [(K & e & w1 & l & S & E) |
        [(K & model & w1 & l & S & F & E) |
         (K & model & w1 & l & p1 & p2 & p3 & w4 & S & F & E)]]];
    rewrite E; cbn [snd];
    try pose proof (setup_log_cases svc ui w w1 _ l S) as C;
    unfold request_event, key_widgets, key_guidance;
    destruct (ui_api_choice ui =? "Gemini");
    try destruct C as [(-> & _) | ->]; try subst l;
    try destruct (ui_generate ui);
    reflexivity.
Qed.

(** The form (the fields and the button) is on the page exactly when a
    key was entered and the setup did not raise. *)
Theorem form_needs_provider
    {W Model Client : Type} (svc : Services W Model Client)
    (ui : Inputs) (w : W) :
  form_shown (snd (main svc ui w)) = true <->
  ui_api_key ui <> EmptyString /\
  exists model w1 l, setup svc ui w = (Ok model, w1, l).
Proof.
  destruct (main_run_cases svc ui w)
    as [(K & E) | [(K & e & w1 & l & S & E) |
        [(K & model & w1 & l & S & F & E) |
         (K & model & w1 & l & p1 & p2 & p3 & w4 & S & F & E)]]];
    rewrite E; cbn [snd];
    try pose proof (setup_log_cases svc ui w w1 _ l S) as C.
  - apply truthy_false in K. split.
    + unfold key_widgets, key_guidance.
      destruct (_ =? _); discriminate.
    + intros (N & _). contradiction.
  - split.
    + unfold key_widgets. destruct (ui_api_choice ui =? "Gemini");
        try destruct C as [(-> & _) | ->]; try subst l; discriminate.
    + intros (_ & model & w2 & l2 & S2). congruence.
  - split; [intros _ |].
    + apply truthy_spec in K. eauto 6.
    + intros _. unfold key_widgets, request_event.
      destruct (ui_api_choice ui =? "Gemini");
        try destruct C as [(-> & _) | ->]; try subst l;
        destruct (ui_generate ui); reflexivity.
  - split; [intros _ |].
    + apply truthy_spec in K. eauto 6.
    + intros _. unfold key_widgets, request_event.
      destruct (ui_api_choice ui =? "Gemini");
        try destruct C as [(-> & _) | ->]; try subst l; reflexivity.
Qed.

(* ===================================================================== *)
(** ** What [strip] leaves *)
(* ===================================================================== *)

Section Strip.

Lemma drop_space_all (fwd : bool) (l : list ascii) :
  forallb space1 l = true -> drop_space fwd l = [].
Proof.
  induction l as [| c l IH]; [reflexivity |].
  cbn [forallb drop_space]. intros H. apply andb_true_iff in H.
  destruct H as [-> H]. exact (IH H).
Qed.

(** [drop_space] gives an end part of its argument, which does not
    begin with a whitespace byte. *)
Lemma drop_space_end (fwd : bool) (n : nat) :
  forall l, length l <= n ->
    (exists pre, l = (pre ++ drop_space fwd l)%list) /\
    (forall c t, drop_space fwd l = c :: t -> space1 c = false).
Proof.
  induction n as [| n IH]; intros l L.
  - destruct l; [| simpl in L; lia].
    split; [exists []; reflexivity | discriminate].
  - destruct l as [| c1 t1].
    { split; [exists []; reflexivity | discriminate]. }
    assert (whole : forall s, s = c1 :: t1 -> space1 c1 = false ->
              (exists pre, c1 :: t1 = (pre ++ s)%list) /\
              (forall c t, s = c :: t -> space1 c = false)).
    { intros s -> S1. split; [exists []; reflexivity |].
      intros c t E. inversion E; subst. exact S1. }
    assert (later : forall pre t,
              c1 :: t1 = (pre ++ t)%list -> length t <= n ->
              (exists pre', c1 :: t1 = (pre' ++ drop_space fwd t)%list) /\
              (forall c r, drop_space fwd t = c :: r -> space1 c = false)).
    { intros pre t E Lt. destruct (IH t Lt) as [(pre' & E') H].
      split; [| exact H]. exists (pre ++ pre')%list.
      rewrite <- app_assoc, <- E'. exact E. }
    simpl in L. cbn [drop_space].
    destruct (space1 c1) eqn:S1.
    { apply (later [c1]); [reflexivity | lia]. }
    destruct t1 as [| c2 t2]; [apply whole; auto |].
    simpl in L.
    destruct (if fwd then space2 c1 c2 else space2 c2 c1).
    { apply (later [c1; c2]); [reflexivity | lia]. }
    destruct t2 as [| c3 t3]; [apply whole; auto |].
    simpl in L.
    destruct (if fwd then space3 c1 c2 c3 else space3 c3 c2 c1).
    { apply (later [c1; c2; c3]); [reflexivity | lia]. }
    apply whole; auto.
Qed.

Lemma list_ascii_of_append (a b : string) :
  list_ascii_of_string (a ++ b) =
  (list_ascii_of_string a ++ list_ascii_of_string b)%list.
Proof.
  induction a as [| c a IH]; simpl; [| rewrite IH]; reflexivity.
Qed.

(** A text of whitespace bytes only is stripped to the empty text. *)
Lemma strip_all_space (t : string) :
  forallb space1 (list_ascii_of_string t) = true -> strip t = EmptyString.
Proof.
  intros H. unfold strip, rstrip, lstrip.
  rewrite (drop_space_all true _ H). reflexivity.
Qed.

(** A stripped text neither begins nor ends with a whitespace byte. *)
Lemma strip_ends (t : string) :
  (forall c rest, strip t = String c rest -> space1 c = false) /\
  (forall body c, strip t = body ++ String c EmptyString ->
                  space1 c = false).
Proof.
  unfold strip, rstrip, lstrip.
  rewrite list_ascii_of_string_of_list_ascii.
  set (L := drop_space true (list_ascii_of_string t)).
  set (R := drop_space false (rev L)).
  destruct (drop_space_end true _ (list_ascii_of_string t) (le_n _))
    as [_ HL]. fold L in HL.
  destruct (drop_space_end false _ (rev L) (le_n _)) as [(pre & ER) HR].
  fold R in ER, HR.
  assert (EL : L = (rev R ++ rev pre)%list).
  { rewrite <- rev_app_distr, <- ER, rev_involutive. reflexivity. }
  split.
  - intros c rest E.
    apply (f_equal list_ascii_of_string) in E.
    rewrite list_ascii_of_string_of_list_ascii in E. cbn in E.
    rewrite E in EL. exact (HL c _ EL).
  - intros body c E.
    apply (f_equal list_ascii_of_string) in E.
    rewrite list_ascii_of_string_of_list_ascii, list_ascii_of_append in E.
    cbn in E. apply (f_equal (@rev ascii)) in E.
    rewrite rev_involutive, rev_app_distr in E. cbn in E.
    exact (HR c _ E).
Qed.

End Strip.

(* ===================================================================== *)
(** ** Answers that are not a post *)
(* ===================================================================== *)

(** A response without usable text is reported as an error text, not
    raised: a Gemini response whose [text] raises gives the message of
    that exception; a chat completion without choices gives "list index
    out of range"; a first choice without content gives the attribute
    error of [None].  The request was sent in each case. *)
Theorem malformed_response_is_reported
    {W Model Client : Type} (svc : Services W Model Client)
    (platform event_name date description venue : string) (w w1 : W) :
  (forall (m : Model) resp (e : Exception),
     generate_content svc m
       (gemini_prompt platform event_name date description venue) w =
       (Ok resp, w1) ->
     text resp = Raise e ->
     generate_post_with_gemini svc (GenerativeModel m)
       platform event_name date description venue w =
     (Ok ("Error generating post: " ++ str e), w1,
      [Call_generate_content
         (gemini_prompt platform event_name date description venue)])) /\
  (forall (c : Client) resp,
     chat_completions_create svc c "gpt-3.5-turbo"
       [ {| role := "user";
            content :=
              chatgpt_prompt platform event_name date description venue |} ]
       w = (Ok resp, w1) ->
     (choices resp = [] ->
      fst (generate_post_with_chatgpt svc (OpenAI c)
             platform event_name date description venue w) =
      (Ok "Error generating post: list index out of range", w1)) /\
     (forall ch chs,
        choices resp = ch :: chs -> message_content ch = None ->
        fst (generate_post_with_chatgpt svc (OpenAI c)
               platform event_name date description venue w) =
        (Ok "Error generating post: 'NoneType' object has no attribute 'strip'",
         w1))).
Proof.
  split.
  - intros m resp e H T. eapply gemini_text_raises; eassumption.
  - intros c resp H. split.
    + intros E.
      rewrite (chatgpt_no_choice svc _ _ _ _ _ c w w1 resp H E). reflexivity.
    + intros ch chs E N.
      rewrite (chatgpt_no_content svc _ _ _ _ _ c w w1 resp ch chs H E N).
      reflexivity.
Qed.

Lemma malformed_response_is_reported_witness :
  fst (generate_post_with_chatgpt
         (fixed_services {| text := Ok "x" |} {| choices := [] |})
         (OpenAI tt) "Twitter" "Tech Conference 2025" "January 15, 2025"
         "Join us..." "Virtual Event" 0) =
  (Ok "Error generating post: list index out of range", 1).
Proof.
  exact (proj1 (proj2 (malformed_response_is_reported
                         (fixed_services {| text := Ok "x" |}
                                         {| choices := [] |})
                         "Twitter" "Tech Conference 2025" "January 15, 2025"
                         "Join us..." "Virtual Event" 0 1)
                  tt {| choices := [] |} eq_refl) eq_refl).
Defined.

(** An answer made of whitespace only gives the empty post, with no
    error: both functions return the empty text. *)
Theorem whitespace_answer_gives_empty_post
    {W Model Client : Type} (svc : Services W Model Client)
    (platform event_name date description venue t : string) (w w1 : W) :
  forallb space1 (list_ascii_of_string t) = true ->
  (forall (m : Model) resp,
     generate_content svc m
       (gemini_prompt platform event_name date description venue) w =
       (Ok resp, w1) ->
     text resp = Ok t ->
     fst (generate_post_with_gemini svc (GenerativeModel m)
            platform event_name date description venue w) =
     (Ok EmptyString, w1)) /\
  (forall (c : Client) resp ch chs,
     chat_completions_create svc c "gpt-3.5-turbo"
       [ {| role := "user";
            content :=
              chatgpt_prompt platform event_name date description venue |} ]
       w = (Ok resp, w1) ->
     choices resp = ch :: chs -> message_content ch = Some t ->
     fst (generate_post_with_chatgpt svc (OpenAI c)
            platform event_name date description venue w) =
     (Ok EmptyString, w1)).
Proof.
  intros H. split.
  - intros m resp G T.
    rewrite (gemini_answers svc _ _ _ _ _ m w w1 resp t G T).
    cbn [fst]. rewrite (strip_all_space t H). reflexivity.
  - intros c resp ch chs G E N.
    rewrite (chatgpt_answers svc _ _ _ _ _ c w w1 resp ch chs t G E N).
    cbn [fst]. rewrite (strip_all_space t H). reflexivity.
Qed.

Lemma whitespace_answer_gives_empty_post_witness :
  fst (generate_post_with_gemini
         (fixed_services {| text := Ok ("  " ++ nl) |} {| choices := [] |})
         (GenerativeModel tt) "Twitter" "Tech Conference 2025"
         "January 15, 2025" "Join us..." "Virtual Event" 0) =
  (Ok EmptyString, 1).
Proof.
  exact (proj1 (whitespace_answer_gives_empty_post
                  (fixed_services {| text := Ok ("  " ++ nl) |}
                                  {| choices := [] |})
                  "Twitter" "Tech Conference 2025" "January 15, 2025"
                  "Join us..." "Virtual Event" ("  " ++ nl) 0 1 eq_refl)
           tt {| text := Ok ("  " ++ nl) |} eq_refl eq_refl).
Defined.

(** A post, when the provider answered with a text, neither begins nor
    ends with a whitespace byte (tab, line feed, vertical tab, form
    feed, carriage return, the separators 28 to 31, space); so for both
    services. *)
Theorem post_is_trimmed
    {W Model Client : Type} (svc : Services W Model Client)
    (platform event_name date description venue : string)
    (w w1 : W) (t : string) :
  (forall (m : Model) resp,
     generate_content svc m
       (gemini_prompt platform event_name date description venue) w =
       (Ok resp, w1) ->
     text resp = Ok t ->
     exists post,
       fst (fst (generate_post_with_gemini svc (GenerativeModel m)
                   platform event_name date description venue w)) = Ok post /\
       (forall c rest, post = String c rest -> space1 c = false) /\
       (forall body c, post = body ++ String c EmptyString ->
                       space1 c = false)) /\
  (forall (c : Client) resp ch chs,
     chat_completions_create svc c "gpt-3.5-turbo"
       [ {| role := "user";
            content :=
              chatgpt_prompt platform event_name date description venue |} ]
       w = (Ok resp, w1) ->
     choices resp = ch :: chs -> message_content ch = Some t ->
     exists post,
       fst (fst (generate_post_with_chatgpt svc (OpenAI c)
                   platform event_name date description venue w)) = Ok post /\
       (forall c rest, post = String c rest -> space1 c = false) /\
       (forall body c, post = body ++ String c EmptyString ->
                       space1 c = false)).
Proof.
  split.
  - intros m resp G T. exists (strip t).
    rewrite (gemini_answers svc _ _ _ _ _ m w w1 resp t G T).
    split; [reflexivity | apply strip_ends].
  - intros c resp ch chs G E N. exists (strip t).
    rewrite (chatgpt_answers svc _ _ _ _ _ c w w1 resp ch chs t G E N).
    split; [reflexivity | apply strip_ends].
Qed.

Lemma post_is_trimmed_witness :
  exists post,
    fst (fst (generate_post_with_gemini
                (fixed_services {| text := Ok ("  A post!" ++ nl) |}
                                {| choices := [] |})
                (GenerativeModel tt) "Twitter" "Tech Conference 2025"
                "January 15, 2025" "Join us..." "Virtual Event" 0)) = Ok post /\
    (forall c rest, post = String c rest -> space1 c = false) /\
    (forall body c, post = body ++ String c EmptyString -> space1 c = false).
Proof.
  exact (proj1 (post_is_trimmed
                  (fixed_services {| text := Ok ("  A post!" ++ nl) |}
                                  {| choices := [] |})
                  "Twitter" "Tech Conference 2025" "January 15, 2025"
                  "Join us..." "Virtual Event" 0 1 ("  A post!" ++ nl))
           tt {| text := Ok ("  A post!" ++ nl) |} eq_refl eq_refl).
Defined.

(* ===================================================================== *)
(** ** Copying plain text *)
(* ===================================================================== *)

Section CopyPlain.

Lemma before_first_unfold (marker s : string) :
  before_first marker s =
  if prefix marker s then Some EmptyString
  else match s with
       | EmptyString => None
       | String c s' => option_map (String c) (before_first marker s')
       end.
Proof. destruct s; reflexivity. Qed.

(** The end tag is found right after a text that holds no tag opener. *)
Lemma before_end_tag (text tail : string) :
  forallb plain_char (list_ascii_of_string text) = true ->
  before_first "</textarea>" (text ++ "</textarea>" ++ tail) = Some text.
Proof.
  induction text as [| x text IH]; intros H.
  - rewrite before_first_unfold.
    change (EmptyString ++ "</textarea>" ++ tail)
      with ("</textarea>" ++ tail).
    rewrite prefix_append. reflexivity.
  - cbn [list_ascii_of_string forallb] in H.
    apply andb_true_iff in H. destruct H as [P H].
    rewrite before_first_unfold.
    change (String x text ++ "</textarea>" ++ tail)
      with (String x (text ++ "</textarea>" ++ tail)).
    assert (N : prefix "</textarea>"
                  (String x (text ++ "</textarea>" ++ tail)) = false).
    { cbn [prefix]. destruct (ascii_dec "<" x) as [<- | _];
        [discriminate P | reflexivity]. }
    rewrite N, (IH H). reflexivity.
Qed.

Lemma after_start_tag (text button_id : string) :
  button_id = "linkedin" \/ button_id = "twitter" \/
  button_id = "whatsapp" ->
  exists tail,
    after_first (textarea_start_tag button_id)
                (create_copy_button text button_id) =
    Some (text ++ "</textarea>" ++ tail).
Proof.
  intros [-> | [-> | ->]]; eexists; lazy; reflexivity.
Qed.

End CopyPlain.

(** For the three buttons of the page: a text of printable ASCII
    characters, tabs and line feeds that holds no tag opener and no
    character reference and does not begin with a line feed is copied as
    it is. *)
Theorem copy_gives_plain_text_back (text button_id : string) :
  button_id = "linkedin" \/ button_id = "twitter" \/
  button_id = "whatsapp" ->
  plain_text text = true ->
  copied_text text button_id = Some text.
Proof.
  intros B P. unfold plain_text in P. apply andb_true_iff in P.
  destruct P as [P _].
  destruct (after_start_tag text button_id B) as (tail & A).
  unfold copied_text, textarea_value. rewrite A.
  apply before_end_tag, P.
Qed.

Lemma copy_gives_plain_text_back_witness :
  copied_text "Join us on January 15, 2025! #TechConference" "whatsapp" =
  Some "Join us on January 15, 2025! #TechConference".
Proof.
  apply copy_gives_plain_text_back.
  - right. right. reflexivity.
  - reflexivity.
Defined.

(* ===================================================================== *)
(** ** The rendered date tells the date *)
(* ===================================================================== *)

Section DateBack.

Lemma long_date_form (d : date) :
  strftime "%B %d, %Y" d =
  month_name (month d) ++ " " ++ two_digits (day d) ++ ", " ++
  decimal (year d).
Proof. cbn [strftime directive]. rewrite append_nil_r. reflexivity. Qed.

(** No month name followed by a space begins another one. *)
Lemma month_name_split (m1 m2 : Z) (r1 r2 : string) :
  (1 <= m1 <= 12)%Z -> (1 <= m2 <= 12)%Z ->
  month_name m1 ++ " " ++ r1 = month_name m2 ++ " " ++ r2 ->
  m1 = m2 /\ r1 = r2.
Proof.
  intros H1 H2.
  destruct (month_in_range m1 H1)
    as [-> | [-> | [-> | [-> | [-> | [-> | [-> | [-> | [-> | [-> | [-> | ->]]]]]]]]]]];
    destruct (month_in_range m2 H2)
      as [-> | [-> | [-> | [-> | [-> | [-> | [-> | [-> | [-> | [-> | [-> | ->]]]]]]]]]]];
    repeat match goal with
           | |- context [month_name ?m] =>
               let v := eval vm_compute in (month_name m) in
               change (month_name m) with v
           end;
    cbn [append]; intros E;
    first [discriminate E | split; [reflexivity | congruence]].
Qed.

Lemma to_int_proper (z : Z) :
  Z.to_int z <> Decimal.Pos Decimal.Nil /\
  Z.to_int z <> Decimal.Neg Decimal.Nil.
Proof.
  split; intros E; pose proof (DecimalZ.of_to z) as H; rewrite E in H;
    cbn in H; subst z; discriminate E.
Qed.

Lemma decimal_inj (y1 y2 : Z) : decimal y1 = decimal y2 -> y1 = y2.
Proof.
  unfold decimal. intros E.
  apply (f_equal NilZero.int_of_string) in E.
  rewrite !NilZero.isi in E by apply to_int_proper.
  inversion E as [I]. exact (DecimalZ.to_int_inj _ _ I).
Qed.

Lemma two_digits_back (n : Z) :
  (1 <= n <= 31)%Z ->
  (exists a b, two_digits n = String a (String b EmptyString)) /\
  option_map Z.of_int (NilZero.int_of_string (two_digits n)) = Some n.
Proof.
  intros H.
  assert (E : exists k : nat, (k < 32)%nat /\ n = Z.of_nat k).
  { exists (Z.to_nat n). split; lia. }
  destruct E as (k & L & ->).
  do 32 (destruct k as [| k];
         [split; [eexists _, _ |]; vm_compute; reflexivity |]).
  lia.
Qed.

End DateBack.

(** Two calendar dates with the same rendering are the same date: the
    format keeps the month, the day and the year apart and loses none of
    them. *)
Theorem date_format_injective (d1 d2 : date) :
  valid_date d1 = true -> valid_date d2 = true ->
  strftime "%B %d, %Y" d1 = strftime "%B %d, %Y" d2 ->
  d1 = d2.
Proof.
  intros V1 V2 E.
  destruct (valid_date_bounds d1 V1) as (M1 & D1 & _).
  destruct (valid_date_bounds d2 V2) as (M2 & D2 & _).
  rewrite !long_date_form in E.
  destruct (month_name_split _ _ _ _ M1 M2 E) as (EM & ER).
  destruct (two_digits_back (day d1) D1) as ((a1 & b1 & T1) & B1).
  destruct (two_digits_back (day d2) D2) as ((a2 & b2 & T2) & B2).
  assert (ED : two_digits (day d1) = two_digits (day d2) /\
               decimal (year d1) = decimal (year d2)).
  { rewrite T1, T2 in ER |- *. cbn in ER. inversion ER. split; reflexivity. }
  destruct ED as (ED & EY).
  rewrite ED, B2 in B1. inversion B1 as [EDay].
  apply decimal_inj in EY.
  destruct d1, d2; cbn in *; subst; reflexivity.
Qed.

Lemma date_format_injective_witness :
  mkdate 2025 1 15 = mkdate (2000 + 25) (3 - 2) (3 * 5).
Proof.
  apply date_format_injective; reflexivity.
Defined.

(* ===================================================================== *)
(** ** Results and requests go together *)
(* ===================================================================== *)

(** In every run each generation request is followed by its own copy
    button before the next request, and there is no copy button without
    a request before it: leaving everything else out, the log is empty
    or is the LinkedIn request, a button "linkedin", the Twitter
    request, a button "twitter", the WhatsApp request, a button
    "whatsapp". *)
Theorem each_request_has_its_button
    {W Model Client : Type} (svc : Services W Model Client)
    (ui : Inputs) (w : W) :
  filter request_or_button (snd (main svc ui w)) = [] \/
  exists linkedin_post twitter_post whatsapp_post,
    filter request_or_button (snd (main svc ui w)) =
    [ request_event ui (ui_prompt ui "LinkedIn");
      Html (create_copy_button linkedin_post "linkedin");
      request_event ui (ui_prompt ui "Twitter");
      Html (create_copy_button twitter_post "twitter");
      request_event ui (ui_prompt ui "WhatsApp");
      Html (create_copy_button whatsapp_post "whatsapp") ].
Proof.
  destruct (main_run_cases svc ui w)
    as [(K & E) | [(K & e & w1 & l & S & E) |
        [(K & model & w1 & l & S & F & E) |
         (K & model & w1 & l & p1 & p2 & p3 & w4 & S & F & E)]]];
    rewrite E; cbn [snd];
    try pose proof (setup_log_cases svc ui w w1 _ l S) as C;
    [left | left | left | right; exists p1, p2, p3];
    unfold request_event, key_widgets, key_guidance;
    destruct (ui_api_choice ui =? "Gemini");
    try destruct C as [(-> & _) | ->]; try subst l;
    try destruct (ui_generate ui);
    reflexivity.
Qed.
